(** * Juan Lab DokuWiki scraper: a shallow embedding of
    [juanlab-astro/scripts/scrape_juanlab.py] (and of the news extractor of
    the older copy [scripts/scrape_juanlab.py]).

    Python strings are sequences of Unicode code points; they are modelled as
    [list Z].  The parse tree produced by BeautifulSoup is an inductive tree
    of element and text nodes.  Three library functions whose tables lie
    outside the program (NFKC normalisation, [str.lower] and
    [urllib.parse.urljoin]) are kept abstract in a record [pylib]; every
    theorem holds for every choice of them, unless it states otherwise. *)

From Stdlib Require Import String Ascii ZArith List Bool Lia Sorting.Sorted Permutation.
Import ListNotations.
Open Scope Z_scope.
#[local] Set Warnings "-register-all".

(** ** Python strings *)

Definition pystr := list Z.

(** An ASCII literal as a Python string. *)
Definition u (s : string) : pystr :=
  map (fun a => Z.of_nat (nat_of_ascii a)) (list_ascii_of_string s).
Arguments u s%_string.

Fixpoint str_eqb (a b : pystr) : bool :=
  match a, b with
  | [], [] => true
  | x :: a', y :: b' => (x =? y) && str_eqb a' b'
  | _, _ => false
  end.

(** [str.isspace] / the [\s] class of [re] on [str] patterns. *)
Definition is_space (c : Z) : bool :=
  ((9 <=? c) && (c <=? 13)) || ((28 <=? c) && (c <=? 32)) || (c =? 133)
  || (c =? 160) || (c =? 5760) || ((8192 <=? c) && (c <=? 8202))
  || (c =? 8232) || (c =? 8233) || (c =? 8239) || (c =? 8287) || (c =? 12288).

(** ASCII decimal digits: the [0-9] of a character class, and the digits of
    [urllib]'s percent escapes and safe set. *)
Definition is_ascii_digit (c : Z) : bool := (48 <=? c) && (c <=? 57).

(** The code points of the digit zero of every Unicode decimal digit run
    (general category Nd, Unicode 14.0 as shipped with Python 3.11); each run
    holds the digits 0 to 9 at consecutive code points. *)
Definition nd_zeros : list Z :=
  [48; 1632; 1776; 1984; 2406; 2534; 2662; 2790; 2918; 3046;
   3174; 3302; 3430; 3558; 3664; 3792; 3872; 4160; 4240; 6112;
   6160; 6470; 6608; 6784; 6800; 6992; 7088; 7232; 7248; 42528;
   43216; 43264; 43472; 43504; 43600; 44016; 65296; 66720; 68912; 69734;
   69872; 69942; 70096; 70384; 70736; 70864; 71248; 71360; 71472; 71904;
   72016; 72784; 73040; 73120; 92768; 92864; 93008; 120782; 120792; 120802;
   120812; 120822; 123200; 123632; 125264; 130032].

(** The decimal value of a character: what [int] reads from it. *)
Definition decimal_value (c : Z) : option Z :=
  match find (fun z => (z <=? c) && (c <=? z + 9)) nd_zeros with
  | Some z => Some (c - z)
  | None => None
  end.

(** [\d] of [re] on [str] patterns: any Unicode decimal digit (Nd). *)
Definition is_digit (c : Z) : bool :=
  match decimal_value c with Some _ => true | None => false end.

(** The value of one decimal digit. *)
Definition digit_value (c : Z) : Z :=
  match decimal_value c with Some v => v | None => 0 end.

(** [int(ds)] for a non-empty string of decimal digits. *)
Definition digits_value (ds : pystr) : Z :=
  fold_left (fun acc d => acc * 10 + digit_value d) ds 0.

(** [str.isdigit] on one character: Numeric_Type Digit or Decimal, which
    adds superscripts, circled and other digit forms to Nd. *)
Definition str_isdigit_ranges : list (Z * Z) :=
  [(48, 57); (178, 179); (185, 185); (1632, 1641); (1776, 1785); (1984, 1993);
   (2406, 2415); (2534, 2543); (2662, 2671); (2790, 2799); (2918, 2927); (3046, 3055);
   (3174, 3183); (3302, 3311); (3430, 3439); (3558, 3567); (3664, 3673); (3792, 3801);
   (3872, 3881); (4160, 4169); (4240, 4249); (4969, 4977); (6112, 6121); (6160, 6169);
   (6470, 6479); (6608, 6618); (6784, 6793); (6800, 6809); (6992, 7001); (7088, 7097);
   (7232, 7241); (7248, 7257); (8304, 8304); (8308, 8313); (8320, 8329); (9312, 9320);
   (9332, 9340); (9352, 9360); (9450, 9450); (9461, 9469); (9471, 9471); (10102, 10110);
   (10112, 10120); (10122, 10130); (42528, 42537); (43216, 43225); (43264, 43273); (43472, 43481);
   (43504, 43513); (43600, 43609); (44016, 44025); (65296, 65305); (66720, 66729); (68160, 68163);
   (68912, 68921); (69216, 69224); (69714, 69722); (69734, 69743); (69872, 69881); (69942, 69951);
   (70096, 70105); (70384, 70393); (70736, 70745); (70864, 70873); (71248, 71257); (71360, 71369);
   (71472, 71481); (71904, 71913); (72016, 72025); (72784, 72793); (73040, 73049); (73120, 73129);
   (92768, 92777); (92864, 92873); (93008, 93017); (120782, 120831); (123200, 123209); (123632, 123641);
   (125264, 125273); (127232, 127242); (130032, 130041)].

Definition is_str_digit (c : Z) : bool :=
  existsb (fun r => (fst r <=? c) && (c <=? snd r)) str_isdigit_ranges.

(** [re.search(r'[一-鿿]', s)] *)
Definition has_cjk (s : pystr) : bool :=
  existsb (fun c => (19968 <=? c) && (c <=? 40959)) s.

Fixpoint starts_with (p s : pystr) : bool :=
  match p, s with
  | [], _ => true
  | x :: p', y :: s' => (x =? y) && starts_with p' s'
  | _, [] => false
  end.

Definition ends_with (p s : pystr) : bool := starts_with (rev p) (rev s).

(** [p in s] *)
Fixpoint contains (p s : pystr) : bool :=
  match s with
  | [] => starts_with p []
  | _ :: s' => starts_with p s || contains p s'
  end.

Definition lstrip_by (f : Z -> bool) (s : pystr) : pystr :=
  (fix go s := match s with
               | c :: s' => if f c then go s' else s
               | [] => [] end) s.

Definition strip_by (f : Z -> bool) (s : pystr) : pystr :=
  rev (lstrip_by f (rev (lstrip_by f s))).

(** [s.strip()] and [s.strip(chars)] *)
Definition strip (s : pystr) : pystr := strip_by is_space s.
Definition strip_chars (cs s : pystr) : pystr :=
  strip_by (fun c => existsb (Z.eqb c) cs) s.

(** [re.sub(r'\s+', ' ', s)] *)
Fixpoint collapse_go (in_run : bool) (s : pystr) : pystr :=
  match s with
  | [] => []
  | c :: s' =>
      if is_space c then (if in_run then collapse_go true s' else 32 :: collapse_go true s')
      else c :: collapse_go false s'
  end.
Definition collapse_ws (s : pystr) : pystr := collapse_go false s.

(** [s.split()]: maximal runs of non-whitespace. *)
Fixpoint split_ws_go (cur : pystr) (s : pystr) : list pystr :=
  match s with
  | [] => if cur then [] else [rev cur]
  | c :: s' =>
      if is_space c then (if cur then split_ws_go [] s' else rev cur :: split_ws_go [] s')
      else split_ws_go (c :: cur) s'
  end.
Definition split_ws (s : pystr) : list pystr := split_ws_go [] s.

(** [s.split(sep)] for a non-empty separator [sep]. *)
Fixpoint split_on_go (sep : pystr) (fuel : nat) (cur s : pystr) : list pystr :=
  match fuel with
  | O => [rev cur ++ s]
  | S f =>
      match s with
      | [] => [rev cur]
      | c :: s' =>
          if starts_with sep s then rev cur :: split_on_go sep f [] (skipn (length sep) s)
          else split_on_go sep f (c :: cur) s'
      end
  end.
Definition split_on (sep s : pystr) : list pystr := split_on_go sep (length s) [] s.

(** [s.replace(old, "", 1)] and [s.replace(old, "")] for a non-empty [old]. *)
Fixpoint remove_first (old s : pystr) : pystr :=
  match s with
  | [] => []
  | c :: s' => if starts_with old s then skipn (length old) s else c :: remove_first old s'
  end.
Definition remove_all (old s : pystr) : pystr := concat (split_on old s).

(** [sep.join(xs)] *)
Fixpoint join (sep : pystr) (xs : list pystr) : pystr :=
  match xs with
  | [] => []
  | [x] => x
  | x :: xs' => x ++ sep ++ join sep xs'
  end.

(** [xs[-1]] for the non-empty lists returned by [split]. *)
Definition last_of (xs : list pystr) : pystr := last xs [].

(** [str(n)] for a non-negative integer. *)
Fixpoint dec_go (fuel : nat) (n : Z) (acc : pystr) : pystr :=
  match fuel with
  | O => acc
  | S f => let acc' := (48 + n mod 10) :: acc in
           if n <? 10 then acc' else dec_go f (n / 10) acc'
  end.
Definition z_to_dec (n : Z) : pystr := dec_go (Z.to_nat n + 1) n [].

(** [s.zfill(2)] for a string without sign. *)
Definition zfill2 (s : pystr) : pystr := repeat 48 (2 - length s) ++ s.

(** ** Library functions kept abstract *)

Record pylib := {
  nfkc : pystr -> pystr;             (* unicodedata.normalize("NFKC", _) *)
  str_lower : pystr -> pystr;        (* str.lower *)
  urljoin : pystr -> pystr -> pystr  (* urllib.parse.urljoin *)
}.

(** NFKC leaves every ASCII string unchanged. *)
Definition nfkc_fixes_ascii (lib : pylib) : Prop :=
  forall s, forallb (fun c => c <? 128) s = true -> nfkc lib s = s.

(** ** The BeautifulSoup parse tree *)

Inductive node :=
| Text (t : pystr)
| Elem (tag : string) (attrs : list (string * pystr)) (kids : list node).

Definition name_of (n : node) : string :=
  match n with Elem t _ _ => t | Text _ => EmptyString end.

Definition is_tag (names : list string) (n : node) : bool :=
  match n with
  | Elem t _ _ => existsb (String.eqb t) names
  | Text _ => false
  end.

(** [el.get(name)] *)
Definition attr (name : string) (n : node) : option pystr :=
  match n with
  | Elem _ attrs _ =>
      match find (fun p => String.eqb (fst p) name) attrs with
      | Some (_, v) => Some v
      | None => None
      end
  | Text _ => None
  end.

(** [el.get(name, "")] *)
Definition attr_or_empty (name : string) (n : node) : pystr :=
  match attr name n with Some v => v | None => [] end.

(** [el.get_text()]: the text nodes below [n], in document order. *)
Fixpoint get_text (n : node) : pystr :=
  match n with
  | Text t => t
  | Elem _ _ ks => concat (map get_text ks)
  end.

(** All nodes strictly below [n], in document (pre-)order. *)
Fixpoint descendants (n : node) : list node :=
  match n with
  | Text _ => []
  | Elem _ _ ks => flat_map (fun k => k :: descendants k) ks
  end.

(** [el.find_all(names)] *)
Definition find_all (names : list string) (n : node) : list node :=
  filter (is_tag names) (descendants n).

(** [el.find(name)]: the first element below [n] with that tag. *)
Definition find_tag (name : string) (n : node) : option node :=
  find (is_tag [name]) (descendants n).

(** ** [urllib.parse.unquote] *)

(** CPython's UTF-8 decoder with [errors='replace']: a lead byte together
    with the longest valid prefix of its continuation bytes that does not
    complete a character is replaced by one U+FFFD. *)
Definition utf8_lead (b : Z) : option (Z * list (Z * Z)) :=
  let c := (128, 191) in
  if (194 <=? b) && (b <=? 223) then Some (b - 192, [c])
  else if b =? 224 then Some (b - 224, [(160, 191); c])
  else if (225 <=? b) && (b <=? 236) then Some (b - 224, [c; c])
  else if b =? 237 then Some (b - 224, [(128, 159); c])
  else if (238 <=? b) && (b <=? 239) then Some (b - 224, [c; c])
  else if b =? 240 then Some (b - 240, [(144, 191); c; c])
  else if (241 <=? b) && (b <=? 243) then Some (b - 240, [c; c; c])
  else if b =? 244 then Some (b - 240, [(128, 143); c; c])
  else None.

Fixpoint utf8_cont (rs : list (Z * Z)) (acc : Z) (bs : list Z) : bool * Z * list Z :=
  match rs with
  | [] => (true, acc, bs)
  | (lo, hi) :: rs' =>
      match bs with
      | b :: bs' =>
          if (lo <=? b) && (b <=? hi) then utf8_cont rs' (acc * 64 + (b - 128)) bs'
          else (false, acc, bs)
      | [] => (false, acc, [])
      end
  end.

Fixpoint utf8_decode_go (fuel : nat) (bs : list Z) : pystr :=
  match fuel with
  | O => []
  | S f =>
      match bs with
      | [] => []
      | b :: bs' =>
          if b <? 128 then b :: utf8_decode_go f bs'
          else match utf8_lead b with
               | None => 65533 :: utf8_decode_go f bs'
               | Some (v, rs) =>
                   match utf8_cont rs v bs' with
                   | (true, cp, rest) => cp :: utf8_decode_go f rest
                   | (false, _, rest) => 65533 :: utf8_decode_go f rest
                   end
               end
      end
  end.
Definition utf8_decode (bs : list Z) : pystr := utf8_decode_go (length bs) bs.

Definition hex_value (c : Z) : option Z :=
  if is_ascii_digit c then Some (c - 48)
  else if (65 <=? c) && (c <=? 70) then Some (c - 55)
  else if (97 <=? c) && (c <=? 102) then Some (c - 87)
  else None.

(** [unquote_to_bytes] on an ASCII chunk: [%XX] becomes the byte [XX],
    any other [%] stays. *)
Fixpoint unquote_bytes (s : pystr) : list Z :=
  match s with
  | 37 :: ((h1 :: h2 :: s') as tl) =>
      match hex_value h1, hex_value h2 with
      | Some a, Some b => (a * 16 + b) :: unquote_bytes s'
      | _, _ => 37 :: unquote_bytes tl
      end
  | c :: s' => c :: unquote_bytes s'
  | [] => []
  end.

(** [_asciire.split(string)]: maximal runs of ASCII and of non-ASCII code
    points, tagged [true] for ASCII. *)
Fixpoint ascii_runs (s : pystr) : list (bool * pystr) :=
  match s with
  | [] => []
  | c :: s' =>
      let a := c <? 128 in
      match ascii_runs s' with
      | (a', run) :: rs => if Bool.eqb a a' then (a, c :: run) :: rs else (a, [c]) :: (a', run) :: rs
      | [] => [(a, [c])]
      end
  end.

Definition unquote (s : pystr) : pystr :=
  if negb (contains (u "%") s) then s
  else concat (map (fun (r : bool * pystr) => if fst r then utf8_decode (unquote_bytes (snd r)) else snd r)
                   (ascii_runs s)).

(** ** [urllib.parse.quote] *)

(** [str.encode("utf-8")] of one code point; [None] is the
    [UnicodeEncodeError] raised on a surrogate. *)
Definition utf8_encode_char (c : Z) : option (list Z) :=
  if c <? 0 then None
  else if c <? 128 then Some [c]
  else if c <? 2048 then Some [192 + c / 64; 128 + c mod 64]
  else if (55296 <=? c) && (c <=? 57343) then None
  else if c <? 65536 then Some [224 + c / 4096; 128 + (c / 64) mod 64; 128 + c mod 64]
  else if c <? 1114112 then
    Some [240 + c / 262144; 128 + (c / 4096) mod 64; 128 + (c / 64) mod 64; 128 + c mod 64]
  else None.

Fixpoint utf8_encode (s : pystr) : option (list Z) :=
  match s with
  | [] => Some []
  | c :: s' =>
      match utf8_encode_char c, utf8_encode s' with
      | Some b, Some bs => Some (b ++ bs)
      | _, _ => None
      end
  end.

(** [_ALWAYS_SAFE]: ASCII letters, digits and [_.-~]. *)
Definition always_safe (b : Z) : bool :=
  ((65 <=? b) && (b <=? 90)) || ((97 <=? b) && (b <=? 122)) || is_ascii_digit b
  || (b =? 95) || (b =? 46) || (b =? 45) || (b =? 126).

(** An upper-case hexadecimal digit, as [f"{b:02X}"] writes it. *)
Definition hex_digit (d : Z) : Z := if d <? 10 then 48 + d else 55 + d.

(** The [_Quoter] of [quote_from_bytes] for the bytes of [safe]. *)
Definition quote_byte (safe : pystr) (b : Z) : pystr :=
  if always_safe b || existsb (Z.eqb b) safe then [b]
  else [37; hex_digit (b / 16); hex_digit (b mod 16)].

(** [quote(string, safe)] for a [str]: UTF-8 encode (strict), then quote
    every byte.  The shortcut of [quote_from_bytes] for a byte string that
    is all safe returns the same string. *)
Definition quote (safe : pystr) (s : pystr) : option pystr :=
  match utf8_encode s with
  | Some bs => Some (concat (map (quote_byte safe) bs))
  | None => None
  end.

(** ** The scraper *)

Section Scraper.

Variable lib : pylib.

Definition BASE_URL : pystr := u "https://sbl.csie.org/JuanLab".
Definition DOKU_URL : pystr := BASE_URL ++ u "/doku.php".

(** *** [fetch_page] *)

(** What [fetch_page] does to the outside world: an HTTP GET of a URL, or a
    [time.sleep] of some seconds. *)
Inductive fetch_event := Get (url : pystr) | Sleep (seconds : Z).

(** The retry loop [for attempt in range(retries)].  [resp k] is the outcome
    of the request of attempt [k]: the parsed page, or [None] when
    [requests.get] or [raise_for_status] raised a [RequestException].  On
    success the page is returned after a sleep of [REQUEST_DELAY] (1 s); on
    failure the loop sleeps [2 ** attempt] seconds unless it was the last
    attempt. *)
Fixpoint fetch_loop (url : pystr) (resp : nat -> option node) (retries : Z)
    (attempt : nat) (fuel : nat) : option node * list fetch_event :=
  match fuel with
  | O => (None, [])
  | S f =>
      match resp attempt with
      | Some soup => (Some soup, [Get url; Sleep 1])
      | None =>
          let backoff := if Z.of_nat attempt <? retries - 1
                         then [Sleep (2 ^ Z.of_nat attempt)] else [] in
          let '(r, ev) := fetch_loop url resp retries (S attempt) f in
          (r, Get url :: backoff ++ ev)
      end
  end.

(** [fetch_page(page_id, retries)]: [None] is the [UnicodeEncodeError] that
    [quote] raises (outside the [try]) on a surrogate in [page_id]. *)
Definition fetch_page (page_id : pystr) (resp : nat -> option node) (retries : Z)
    : option (option node * list fetch_event) :=
  match quote (u ":") page_id with
  | Some q => Some (fetch_loop (DOKU_URL ++ u "?id=" ++ q) resp retries 0 (Z.to_nat retries))
  | None => None
  end.

(** [clean_text] *)
Definition clean_text (text : pystr) : pystr :=
  match text with
  | [] => []
  | _ => strip (collapse_ws (nfkc lib text))
  end.

(** [make_absolute_url] *)
Definition make_absolute_url (href : pystr) : pystr :=
  match href with
  | [] => []
  | _ => if starts_with (u "http") href then href else urljoin lib (BASE_URL ++ u "/") href
  end.

(** [soup.find("div", class_="dokuwiki") or soup.find("div", id="dokuwiki__content")] *)
Definition has_class (c : pystr) (n : node) : bool :=
  match attr "class" n with
  | Some v => existsb (str_eqb c) (split_ws v)
  | None => false
  end.

Definition find_content (soup : node) : option node :=
  match find (fun n => is_tag ["div"%string] n && has_class (u "dokuwiki") n) (descendants soup) with
  | Some c => Some c
  | None =>
      find (fun n => is_tag ["div"%string] n
                     && match attr "id" n with
                        | Some v => str_eqb v (u "dokuwiki__content")
                        | None => false end)
           (descendants soup)
  end.


(** *** Regular expressions of the pattern library *)

(** Leading whitespace of a string, and what follows it. *)
Definition span_ws (s : pystr) : pystr * pystr :=
  let t := lstrip_by is_space s in
  (firstn (length s - length t) s, t).

(** [\s*(.+)$] after a prefix that has already matched: the title is what
    follows the whitespace, or (backtracking) the last whitespace character
    when nothing follows it.  [min_ws] is 1 for [\s+] and 0 for [\s*]. *)
Definition ws_then_rest (min_ws : nat) (r : pystr) : option pystr :=
  let (ws, t) := span_ws r in
  if (length ws <? min_ws)%nat then None
  else match t with
       | _ :: _ => Some t
       | [] => if (min_ws <? length ws)%nat then Some [last ws 0] else None
       end.

(** [re.match(r'^(\d{2})\.(\d{2})\s+(.+)$', text)].  Exact on strings
    without a line feed, which is all [clean_text] returns. *)
Definition news_match (text : pystr) : option (pystr * pystr * pystr) :=
  match text with
  | y1 :: y2 :: dot :: m1 :: m2 :: r =>
      if is_digit y1 && is_digit y2 && (dot =? 46) && is_digit m1 && is_digit m2 then
        match ws_then_rest 1 r with
        | Some title => Some ([y1; y2], [m1; m2], title)
        | None => None
        end
      else None
  | _ => None
  end.

(** *** [extract_news] *)

Record news_item := {
  n_date : pystr;
  n_year : Z;
  n_month : Z;
  n_title : pystr;
  n_link : option pystr;
  n_category : pystr
}.

Definition any_in (kws : list pystr) (s : pystr) : bool :=
  existsb (fun kw => contains kw s) kws.

Definition news_category (title : pystr) : pystr :=
  let title_lower := str_lower lib title in
  if any_in [[0x734e]; u "award"; [0x69ae; 0x7372]; [0x5f97; 0x734e]] title_lower
  then u "award"
  else if any_in [[0x767c; 0x8868]; u "paper"; u "publish"; u "journal"] title_lower
  then u "publication"
  else if any_in [[0x5fb5]; u "recruit"; [0x8058]] title_lower
  then u "recruitment"
  else u "general".

(** The body of the [for li in content.find_all("li")] loop. *)
Definition news_of_li (li : node) : option news_item :=
  let text := clean_text (get_text li) in
  match news_match text with
  | Some (year_short, month, title) =>
      let year0 := digits_value year_short in
      let year := if year0 <? 50 then 2000 + year0 else 1900 + year0 in
      let link := match find_tag "a" li with
                  | Some a_tag => match attr "href" a_tag with
                                  | Some ((_ :: _) as href) => Some (make_absolute_url href)
                                  | _ => None
                                  end
                  | None => None
                  end in
      Some {| n_date := z_to_dec year ++ u "-" ++ zfill2 month;
              n_year := year;
              n_month := digits_value month;
              n_title := title;
              n_link := link;
              n_category := news_category title |}
  | None => None
  end.

(** [news_items.sort(key=lambda x: (x["year"], x["month"]), reverse=True)].
    Python's sort is stable also with [reverse=True], so its result is the
    unique stable sort by descending key; insertion sort computes it. *)
Definition news_ge (a b : news_item) : bool :=
  (n_year b <? n_year a) || ((n_year a =? n_year b) && (n_month b <=? n_month a)).

Fixpoint insert_news (x : news_item) (l : list news_item) : list news_item :=
  match l with
  | [] => [x]
  | y :: l' => if news_ge x y then x :: l else y :: insert_news x l'
  end.

Definition sort_news (l : list news_item) : list news_item := fold_right insert_news [] l.

Definition extract_news (soup : node) : list news_item :=
  match find_content soup with
  | None => []
  | Some content =>
      let news_items :=
        fold_left (fun acc li => match news_of_li li with
                                 | Some item => acc ++ [item]
                                 | None => acc
                                 end)
                  (find_all ["li"%string] content) [] in
      sort_news news_items
  end.

(** *** [extract_research_highlights] *)

Record highlight := {
  h_id : pystr;
  h_title_zh : pystr;
  h_title_en : pystr;
  h_description : list pystr;
  h_image : option pystr;
  h_publications : list pystr
}.

Definition set_image (h : highlight) (img : pystr) : highlight :=
  {| h_id := h_id h; h_title_zh := h_title_zh h; h_title_en := h_title_en h;
     h_description := h_description h; h_image := Some img;
     h_publications := h_publications h |}.

Definition add_description (h : highlight) (para : pystr) : highlight :=
  {| h_id := h_id h; h_title_zh := h_title_zh h; h_title_en := h_title_en h;
     h_description := h_description h ++ [para]; h_image := h_image h;
     h_publications := h_publications h |}.

(** [re.sub(r'[^a-z0-9]+', '-', s).strip('-')] *)
Definition is_slug_char (c : Z) : bool := ((97 <=? c) && (c <=? 122)) || is_ascii_digit c.

Fixpoint slug_go (in_run : bool) (s : pystr) : pystr :=
  match s with
  | [] => []
  | c :: s' =>
      if is_slug_char c then c :: slug_go false s'
      else if in_run then slug_go true s' else 45 :: slug_go true s'
  end.

Definition slugify (s : pystr) : pystr := strip_chars (u "-") (slug_go false s).

Definition highlight_marker (text : pystr) : bool :=
  contains (u "ATP") text || contains [0x751f; 0x91ab; 0x5927; 0x6578; 0x64da] text
  || contains (u "Ectopic") text || contains (u "Big Data") text.

Definition new_highlight (text : pystr) : highlight :=
  {| h_id := slugify (str_lower lib text);
     h_title_zh := if has_cjk text then text else [];
     h_title_en := if has_cjk text then [] else text;
     h_description := [];
     h_image := None;
     h_publications := [] |}.

(** The loop state: [highlights] and [current_highlight]. *)
Definition hl_state := (list highlight * option highlight)%type.

(** The body of the loop over [content.find_all(["h1", "h2", "h3", "p", "img", "a"])]. *)
Definition highlight_step (st : hl_state) (element : node) : hl_state :=
  let '(highlights, current_highlight) := st in
  let text := if String.eqb (name_of element) "img" then [] else clean_text (get_text element) in
  if is_tag ["h1"; "h2"; "h3"]%string element then
    if contains (u "Research Highlight") text then st
    else if match current_highlight with None => true | Some _ => false end
            && highlight_marker text then
      let highlights := match current_highlight with
                        | Some h => highlights ++ [h]
                        | None => highlights
                        end in
      (highlights, Some (new_highlight text))
    else st
  else if String.eqb (name_of element) "a" then
    match find_tag "img" element, current_highlight with
    | Some img, Some h =>
        let src := attr_or_empty "src" img in
        if contains (u "highlight") (str_lower lib src) || contains (u "research") (str_lower lib src)
        then (highlights, Some (set_image h (make_absolute_url src)))
        else st
    | _, _ => st
    end
  else if String.eqb (name_of element) "p" then
    match current_highlight with
    | Some h =>
        let para_text := clean_text (get_text element) in
        if negb (Nat.eqb (length para_text) 0) && (50 <? length para_text)%nat
        then (highlights, Some (add_description h para_text))
        else st
    | None => st
    end
  else st.

Definition highlight_elements (content : node) : list node :=
  find_all ["h1"; "h2"; "h3"; "p"; "img"; "a"]%string content.

Definition extract_research_highlights (soup : node) : list highlight :=
  match find_content soup with
  | None => []
  | Some content =>
      let '(highlights, current_highlight) :=
        fold_left highlight_step (highlight_elements content) ([], None) in
      match current_highlight with
      | Some h => highlights ++ [h]
      | None => highlights
      end
  end.

(** *** [extract_research_projects] *)

Record project := {
  p_id : pystr;
  p_number : Z;
  p_title_zh : pystr;
  p_title_en : pystr;
  p_description : pystr
}.

(** [re.match(r'^\*?\*?\s*(\d+)\.\s*(.+)$', text)], exact on strings
    without a line feed. *)
Definition project_match (text : pystr) : option (pystr * pystr) :=
  let r1 := match text with 42 :: r => r | _ => text end in
  let r2 := match r1 with 42 :: r => r | _ => r1 end in
  let r3 := lstrip_by is_space r2 in
  let rest := lstrip_by is_digit r3 in
  let number := firstn (length r3 - length rest) r3 in
  match number, rest with
  | _ :: _, 46 :: r =>
      match ws_then_rest 0 r with
      | Some title => Some (number, title)
      | None => None
      end
  | _, _ => None
  end.

(** The split of a project title into its Chinese and English parts. *)
Definition project_titles (element : node) (title : pystr) : pystr * pystr :=
  let raw := get_text element in
  if contains [10] raw then
    fold_left (fun (zh_en : pystr * pystr) part0 =>
                 let '(title_zh, title_en) := zh_en in
                 let part := clean_text part0 in
                 match part with
                 | c :: _ => if negb (is_str_digit c)
                             then (if has_cjk part then (part, title_en) else (title_zh, part))
                             else zh_en
                 | [] => zh_en
                 end)
              (split_on [10] (strip raw)) ([], [])
  else if has_cjk title then (title, []) else ([], title).

(** The loop state: [projects] and [in_projects_section]. *)
Definition project_step (st : list project * bool) (element : node) : list project * bool :=
  let '(projects, in_projects_section) := st in
  let text := clean_text (get_text element) in
  let is_header := is_tag ["h1"; "h2"; "h3"]%string element in
  if is_header && (contains (u "Research Project") text || contains [0x7814; 0x7a76; 0x8a08; 0x756b] text)
  then (projects, true)
  else
    let in_projects_section :=
      if is_header && in_projects_section && is_tag ["h1"; "h2"]%string element
      then false else in_projects_section in
    if in_projects_section then
      match project_match text with
      | Some (number, title) =>
          let '(title_zh, title_en) := project_titles element title in
          (projects ++ [{| p_id := u "project-" ++ number;
                           p_number := digits_value number;
                           p_title_zh := title_zh;
                           p_title_en := title_en;
                           p_description := [] |}], in_projects_section)
      | None => (projects, in_projects_section)
      end
    else (projects, in_projects_section).

Definition extract_research_projects (soup : node) : list project :=
  match find_content soup with
  | None => []
  | Some content =>
      fst (fold_left project_step (find_all ["h1"; "h2"; "h3"; "p"; "li"]%string content) ([], false))
  end.

(** *** [extract_people] *)

Inductive category := phd_students | masters_students | undergrads | visiting | alumni | postdocs.

Record person := {
  name_zh : pystr;
  name_en : pystr;
  year_start : Z;
  department : pystr;
  research : list pystr;
  photo : option pystr;
  email : option pystr
}.

(** The [people] dict: its six keys are always present. *)
Record roster := {
  r_phd_students : list person;
  r_masters_students : list person;
  r_undergrads : list person;
  r_visiting : list person;
  r_alumni : list person;
  r_postdocs : list person
}.

Definition empty_roster : roster := Build_roster [] [] [] [] [] [].

Definition bucket (c : category) (r : roster) : list person :=
  match c with
  | phd_students => r_phd_students r
  | masters_students => r_masters_students r
  | undergrads => r_undergrads r
  | visiting => r_visiting r
  | alumni => r_alumni r
  | postdocs => r_postdocs r
  end.

(** [people[c].append(m)] *)
Definition push (c : category) (m : person) (r : roster) : roster :=
  let add c' := if match c, c' with
                   | phd_students, phd_students | masters_students, masters_students
                   | undergrads, undergrads | visiting, visiting
                   | alumni, alumni | postdocs, postdocs => true
                   | _, _ => false end
                then bucket c' r ++ [m] else bucket c' r in
  Build_roster (add phd_students) (add masters_students) (add undergrads)
               (add visiting) (add alumni) (add postdocs).

(** [category_keywords], in the dict's insertion (= iteration) order. *)
Definition category_keywords : list (pystr * category) :=
  [(u "phd", phd_students); (u "ph.d", phd_students);
   ([0x535a; 0x58eb], phd_students); (u "doctoral", phd_students);
   (u "master", masters_students); ([0x78a9; 0x58eb], masters_students);
   (u "ms student", masters_students);
   (u "undergrad", undergrads); ([0x5927; 0x5c08], undergrads);
   ([0x5927; 0x5b78; 0x90e8], undergrads);
   (u "visiting", visiting); (u "exchange", visiting); ([0x8a2a; 0x554f], visiting);
   (u "alumni", alumni); ([0x7562; 0x696d], alumni); (u "former", alumni);
   (u "postdoc", postdocs); ([0x535a; 0x58eb; 0x5f8c], postdocs)].

(** The categories remapped to [alumni] inside the alumni section. *)
Definition is_standard_role (c : category) : bool :=
  match c with
  | phd_students | masters_students | undergrads | postdocs => true
  | visiting | alumni => false
  end.

(** The text before and after the first occurrence of [c]. *)
Fixpoint split_at_char (c : Z) (s : pystr) : option (pystr * pystr) :=
  match s with
  | [] => None
  | x :: s' =>
      if x =? c then Some ([], s')
      else match split_at_char c s' with
           | Some (a, b) => Some (x :: a, b)
           | None => None
           end
  end.

(** [re.match(r'^([^\(]+?)\s*\(([^)]+)\)(.{0,})$', text)] (the source
    writes the last group with a star), exact on strings without a line feed.  The [\(] can only be the first [(] (neither group 1
    nor [\s*] contains one); the lazy group 1 is the text before it without
    its trailing whitespace, but at least one character; group 2 runs up to
    the first [)] after it and is not empty. *)
Definition member_match (text : pystr) : option (pystr * pystr * pystr) :=
  match split_at_char 40 text with
  | Some (before, after) =>
      match before with
      | [] => None
      | b0 :: _ =>
          let kept := rev (lstrip_by is_space (rev before)) in
          let g1 := match kept with [] => [b0] | _ => kept end in
          match split_at_char 41 after with
          | Some ((_ :: _) as g2, g3) => Some (g1, g2, g3)
          | _ => None
          end
      end
  | None => None
  end.

(** [re.search(r'(\d{2})', s)] *)
Fixpoint search_two_digits (s : pystr) : option pystr :=
  match s with
  | a :: ((b :: _) as t) =>
      if is_digit a && is_digit b then Some [a; b] else search_two_digits t
  | _ => None
  end.

(** Year and department from the parenthesised info (lines 427-442). *)
Definition parse_year_dept (info_part : pystr) : Z * pystr :=
  match search_two_digits info_part with
  | Some y_str =>
      let year_val := digits_value y_str in
      (if year_val <? 50 then 2000 + year_val else 1900 + year_val,
       strip_chars (u " -;,") (remove_first y_str info_part))
  | None => (2024, info_part)
  end.

(** Chinese and English names from the whitespace-separated name parts. *)
Definition split_names (name_part : pystr) : pystr * pystr :=
  fold_left (fun (zh_en : pystr * pystr) part =>
               let '(name_zh, name_en) := zh_en in
               if has_cjk part then (part, name_en)
               else (name_zh, strip (name_en ++ [32] ++ part)))
            (split_ws name_part) ([], []).

(** [element.find("img")] turned into a photo URL. *)
Definition photo_of (element : node) : option pystr :=
  match find_tag "img" element with
  | Some img => Some (make_absolute_url (attr_or_empty "src" img))
  | None => None
  end.

(** [element.find("a", href=re.compile(r'^mailto:'))] turned into an address. *)
Definition email_of (element : node) : option pystr :=
  match find (fun n => is_tag ["a"%string] n
                       && match attr "href" n with
                          | Some h => starts_with (u "mailto:") h
                          | None => false end)
             (descendants element) with
  | Some a => Some (remove_all (u "mailto:") (attr_or_empty "href" a))
  | None => None
  end.

(** The record built from a match of the member pattern. *)
Definition member_of_parts (element : node) (name_part info_part rest_part : pystr) : person :=
  let '(year_start, dept) := parse_year_dept info_part in
  let '(name_zh, name_en) := split_names name_part in
  {| name_zh := name_zh;
     name_en := name_en;
     year_start := year_start;
     department := dept;
     research := filter (fun r => negb (Nat.eqb (length r) 0))
                        (map strip (split_on (u ",") rest_part));
     photo := photo_of element;
     email := email_of element |}.

(** The record of the fallback path (text without the member pattern).
    The year searches of lines 496-503 have no effect and are omitted. *)
Definition fallback_member (element : node) (name : pystr) : person :=
  {| name_zh := if has_cjk name then name else [];
     name_en := if has_cjk name then [] else name;
     year_start := 2024;
     department := [];
     research := [];
     photo := photo_of element;
     email := None |}.

Record people_state := {
  people : roster;
  current_category : option category;
  is_alumni_section : bool
}.

Definition people_init : people_state := Build_people_state empty_roster None false.

(** [current_category = c]; the alumni flag is left as it is. *)
Definition set_category (st : people_state) (c : category) : people_state :=
  Build_people_state (people st) (Some c) (is_alumni_section st).

Definition append_member (st : people_state) (c : category) (m : person) : people_state :=
  Build_people_state (push c m (people st)) (current_category st) (is_alumni_section st).

(** The body of the loop over
    [content.find_all(["h1", "h2", "h3", "h4", "li", "p", "tr"])];
    the debug prints are left out. *)
Definition people_step (st : people_state) (element : node) : people_state :=
  let text := clean_text (get_text element) in
  match text with
  | [] => st
  | _ =>
      let text_lower := str_lower lib text in
      if is_tag ["h1"; "h2"; "h3"; "h4"]%string element then
        if contains (u "alumni") text_lower
        then Build_people_state (people st) (Some alumni) true
        else match find (fun kc => contains (fst kc) text_lower) category_keywords with
             | Some (_, category) =>
                 if is_alumni_section st then
                   (if is_standard_role category then set_category st alumni
                    else set_category st category)
                 else set_category st category
             | None => st
             end
      else if is_tag ["li"; "p"; "tr"]%string element then
        match current_category st with
        | None => st
        | Some c =>
            if (length text <? 2)%nat then st
            else match member_match text with
                 | Some (g1, g2, g3) =>
                     append_member st c (member_of_parts element (strip g1) (strip g2) (strip g3))
                 | None =>
                     let text_clean := strip text in
                     if (1 <? length text_clean)%nat && (length text_clean <? 50)%nat
                     then append_member st c (fallback_member element text_clean)
                     else st
                 end
        end
      else st
  end.

Definition people_elements (content : node) : list node :=
  find_all ["h1"; "h2"; "h3"; "h4"; "li"; "p"; "tr"]%string content.

(** The loop run over a sequence of elements from the initial state. *)
Definition people_run (els : list node) : people_state := fold_left people_step els people_init.

Definition extract_people (soup : node) : roster :=
  match find_content soup with
  | None => empty_roster
  | Some content => people (people_run (people_elements content))
  end.

(** *** [extract_pi_info] *)

Record pi_info := {
  pi_name_zh : pystr;
  pi_name_en : pystr;
  pi_title : pystr;
  pi_department : pystr;
  pi_institution : pystr;
  pi_email : pystr;
  pi_email2 : pystr;
  pi_phone : pystr;
  pi_fax : pystr;
  pi_address : pystr;
  pi_photo : option pystr;
  pi_bio : pystr;
  pi_education : list pystr;
  pi_positions : list pystr;
  pi_awards : list pystr;
  pi_societies : list pystr
}.

(** The [pi] dict as initialised (lines 529-546). *)
Definition pi_default : pi_info :=
  {| pi_name_zh := [0x962e; 0x96ea; 0x82ac];
     pi_name_en := u "Hsueh-Fen Juan";
     pi_title := u "Distinguished Professor";
     pi_department := u "Department of Life Science";
     pi_institution := u "National Taiwan University";
     pi_email := u "yukijuan@ntu.edu.tw";
     pi_email2 := u "yukijuan@gmail.com";
     pi_phone := u "+886-2-3366-4536";
     pi_fax := u "+886-2-2367-3374";
     pi_address := u "Rm. 1105, Life Science Building, National Taiwan University, No. 1 Sec. 4 Roosevelt Road, Taipei 106, Taiwan";
     pi_photo := None;
     pi_bio := [];
     pi_education := [];
     pi_positions := [];
     pi_awards := [];
     pi_societies := [] |}.

Inductive pi_section := education | positions | awards | societies.

Definition section_keywords : list (pystr * pi_section) :=
  [(u "education", education); ([0x5b78; 0x6b77], education);
   (u "position", positions); ([0x7d93; 0x6b77], positions);
   (u "award", awards); ([0x69ae; 0x8b7d], awards); (u "honor", awards);
   (u "society", societies); ([0x5b78; 0x6703], societies)].

Definition pi_with (pi : pi_info) (photo : option pystr) (bio : pystr)
    (ed ps aw so : list pystr) : pi_info :=
  {| pi_name_zh := pi_name_zh pi; pi_name_en := pi_name_en pi; pi_title := pi_title pi;
     pi_department := pi_department pi; pi_institution := pi_institution pi;
     pi_email := pi_email pi; pi_email2 := pi_email2 pi; pi_phone := pi_phone pi;
     pi_fax := pi_fax pi; pi_address := pi_address pi;
     pi_photo := photo; pi_bio := bio;
     pi_education := ed; pi_positions := ps; pi_awards := aw; pi_societies := so |}.

(** [pi[section].append(text)] *)
Definition pi_append (sec : pi_section) (text : pystr) (pi : pi_info) : pi_info :=
  let ed := pi_education pi in let ps := pi_positions pi in
  let aw := pi_awards pi in let so := pi_societies pi in
  match sec with
  | education => pi_with pi (pi_photo pi) (pi_bio pi) (ed ++ [text]) ps aw so
  | positions => pi_with pi (pi_photo pi) (pi_bio pi) ed (ps ++ [text]) aw so
  | awards => pi_with pi (pi_photo pi) (pi_bio pi) ed ps (aw ++ [text]) so
  | societies => pi_with pi (pi_photo pi) (pi_bio pi) ed ps aw (so ++ [text])
  end.

(** The body of the loop over [content.find_all(["h2", "h3", "h4", "li"])]. *)
Definition pi_step (st : pi_info * option pi_section) (element : node)
    : pi_info * option pi_section :=
  let '(pi, current_section) := st in
  let text := clean_text (get_text element) in
  let text_lower := str_lower lib text in
  if is_tag ["h2"; "h3"; "h4"]%string element then
    match find (fun ks => contains (fst ks) text_lower) section_keywords with
    | Some (_, section) => (pi, Some section)
    | None => st
    end
  else if String.eqb (name_of element) "li" then
    match current_section, text with
    | Some sec, _ :: _ => (pi_append sec text pi, current_section)
    | _, _ => st
    end
  else st.

Definition extract_pi_info (soup : node) : pi_info :=
  match find_content soup with
  | None => pi_default
  | Some content =>
      let photo :=
        match find (fun img => let src := str_lower lib (attr_or_empty "src" img) in
                               contains (u "juan") src || contains (u "pi") src)
                   (find_all ["img"%string] content) with
        | Some img => Some (make_absolute_url (attr_or_empty "src" img))
        | None => None
        end in
      let paragraphs :=
        filter (fun t => (100 <? length t)%nat)
               (map (fun p => clean_text (get_text p)) (find_all ["p"%string] content)) in
      let bio := match paragraphs with
                 | [] => []
                 | _ => join [10; 10] (firstn 3 paragraphs)
                 end in
      let pi := pi_with pi_default photo bio [] [] [] [] in
      fst (fold_left pi_step (find_all ["h2"; "h3"; "h4"; "li"]%string content) (pi, None))
  end.

(** *** [extract_image_urls] *)

Record image_ref := {
  i_url : pystr;
  i_filename : pystr;
  i_alt : pystr
}.

Definition image_exts : list pystr :=
  [u ".jpg"; u ".jpeg"; u ".png"; u ".gif"; u ".webp"].

(** The body of the loop over [soup.find_all("img")]. *)
Definition image_of_img (img : node) : option image_ref :=
  let src := attr_or_empty "src" img in
  if contains (u "/lib/exe/fetch.php") src || existsb (fun e => ends_with e src) image_exts then
    let src := if starts_with (u "http") src then src else urljoin lib BASE_URL src in
    let filename :=
      if contains (u "media=") src then unquote (last_of (split_on (u "media=") src))
      else unquote (hd [] (split_on (u "?") (last_of (split_on (u "/") src)))) in
    Some {| i_url := src; i_filename := filename; i_alt := attr_or_empty "alt" img |}
  else None.

Definition extract_image_urls (soup : node) : list image_ref :=
  fold_left (fun images img => match image_of_img img with
                               | Some r => images ++ [r]
                               | None => images
                               end)
            (find_all ["img"%string] soup) [].

(** *** The image part of [main] *)

(** [all_images]: the references of the start, members and PI pages, each
    present when its fetch succeeded. *)
Definition all_images (start_soup members_soup pi_soup : option node) : list image_ref :=
  let images o := match o with Some soup => extract_image_urls soup | None => [] end in
  images start_soup ++ images members_soup ++ images pi_soup.

(** The deduplication loop of lines 714-719. *)
Definition dedup_images (imgs : list image_ref) : list image_ref :=
  snd (fold_left (fun (acc : list pystr * list image_ref) img =>
                    let '(seen_urls, unique_images) := acc in
                    if existsb (str_eqb (i_url img)) seen_urls then acc
                    else (i_url img :: seen_urls, unique_images ++ [img]))
                 imgs ([], [])).

Definition images_manifest (start_soup members_soup pi_soup : option node) : list image_ref :=
  dedup_images (all_images start_soup members_soup pi_soup).

(** *** The files written by [main] *)



End Scraper.

(** ** The older copy [scripts/scrape_juanlab.py]: its news extractor *)

Module ScriptsCopy.

Section Scraper.

Variable lib : pylib.

Definition BASE_URL : pystr := u "https://sbl.csie.org/JuanLab".

Definition clean_text (text : pystr) : pystr :=
  match text with
  | [] => []
  | _ => strip (collapse_ws (nfkc lib text))
  end.

Definition make_absolute_url (href : pystr) : pystr :=
  match href with
  | [] => []
  | _ => if starts_with (u "http") href then href else urljoin lib (BASE_URL ++ u "/") href
  end.

Definition find_content (soup : node) : option node :=
  match find (fun n => is_tag ["div"%string] n && has_class (u "dokuwiki") n) (descendants soup) with
  | Some c => Some c
  | None =>
      find (fun n => is_tag ["div"%string] n
                     && match attr "id" n with
                        | Some v => str_eqb v (u "dokuwiki__content")
                        | None => false end)
           (descendants soup)
  end.

(** [re.match(r'^(\d{2})\.(\d{2})\s+(.+)$', text)] *)
Definition news_match (text : pystr) : option (pystr * pystr * pystr) :=
  match text with
  | y1 :: y2 :: dot :: m1 :: m2 :: r =>
      if is_digit y1 && is_digit y2 && (dot =? 46) && is_digit m1 && is_digit m2 then
        match ws_then_rest 1 r with
        | Some title => Some ([y1; y2], [m1; m2], title)
        | None => None
        end
      else None
  | _ => None
  end.

Definition news_category (title : pystr) : pystr :=
  let title_lower := str_lower lib title in
  if any_in [[0x734e]; u "award"; [0x69ae; 0x7372]; [0x5f97; 0x734e]] title_lower
  then u "award"
  else if any_in [[0x767c; 0x8868]; u "paper"; u "publish"; u "journal"] title_lower
  then u "publication"
  else if any_in [[0x5fb5]; u "recruit"; [0x8058]] title_lower
  then u "recruitment"
  else u "general".

Definition news_of_li (li : node) : option news_item :=
  let text := clean_text (get_text li) in
  match news_match text with
  | Some (year_short, month, title) =>
      let year0 := digits_value year_short in
      let year := if year0 <? 50 then 2000 + year0 else 1900 + year0 in
      let link := match find_tag "a" li with
                  | Some a_tag => match attr "href" a_tag with
                                  | Some ((_ :: _) as href) => Some (make_absolute_url href)
                                  | _ => None
                                  end
                  | None => None
                  end in
      Some {| n_date := z_to_dec year ++ u "-" ++ zfill2 month;
              n_year := year;
              n_month := digits_value month;
              n_title := title;
              n_link := link;
              n_category := news_category title |}
  | None => None
  end.

Definition news_ge (a b : news_item) : bool :=
  (n_year b <? n_year a) || ((n_year a =? n_year b) && (n_month b <=? n_month a)).

Fixpoint insert_news (x : news_item) (l : list news_item) : list news_item :=
  match l with
  | [] => [x]
  | y :: l' => if news_ge x y then x :: l else y :: insert_news x l'
  end.

Definition sort_news (l : list news_item) : list news_item := fold_right insert_news [] l.

Definition extract_news (soup : node) : list news_item :=
  match find_content soup with
  | None => []
  | Some content =>
      let news_items :=
        fold_left (fun acc li => match news_of_li li with
                                 | Some item => acc ++ [item]
                                 | None => acc
                                 end)
                  (find_all ["li"%string] content) [] in
      sort_news news_items
  end.

End Scraper.

End ScriptsCopy.

(** ** Readings of the specification *)

(** The manifest as the specification words it: an entry is kept exactly
    when no earlier entry carries the same URL string. *)
Fixpoint first_occurrences (earlier l : list image_ref) : list image_ref :=
  match l with
  | [] => []
  | x :: l' =>
      if existsb (str_eqb (i_url x)) (map i_url earlier)
      then first_occurrences (earlier ++ [x]) l'
      else x :: first_occurrences (earlier ++ [x]) l'
  end.

(** The value of the [media] query parameter of a URL: the query is what
    follows the first [?], its parameters are separated by [&]. *)
Definition media_query_value (url : pystr) : option pystr :=
  match split_at_char 63 url with
  | Some (_, query) =>
      match find (starts_with (u "media=")) (split_on (u "&") query) with
      | Some p => Some (skipn 6 p)
      | None => None
      end
  | None => None
  end.








(** ** Readings of the extra properties *)

(** Every element is an ASCII code point. *)
Definition is_ascii_list (l : list Z) : Prop := Forall (fun c => 0 <= c < 128) l.

(** The number of requests in a trace of [fetch_page]. *)
Definition count_gets (ev : list fetch_event) : nat :=
  length (filter (fun e => match e with Get _ => true | Sleep _ => false end) ev).

(** The seconds slept in a trace of [fetch_page]. *)
Definition total_sleep (ev : list fetch_event) : Z :=
  fold_right (fun e acc => match e with Sleep s => s + acc | Get _ => acc end) 0 ev.

(** Every request of a trace is a GET of [url]. *)
Definition gets_only (url : pystr) (ev : list fetch_event) : Prop :=
  Forall (fun e => match e with Get v => v = url | Sleep _ => True end) ev.

(** No two adjacent whitespace characters (boolean form). *)
Fixpoint no_adj_space (l : pystr) : bool :=
  match l with
  | a :: ((b :: _) as t) => negb (is_space a && is_space b) && no_adj_space t
  | _ => true
  end.

(** The first character, if any, fails [f]. *)
Definition head_ok (f : Z -> bool) (l : pystr) : Prop := forall c rest, l = c :: rest -> f c = false.

(** No two adjacent characters both satisfy [f]. *)
Definition no_adj (f : Z -> bool) (l : pystr) : Prop :=
  forall pre a b post, l = pre ++ a :: b :: post -> ~ (f a = true /\ f b = true).

(** The character set stripped by [slugify]. *)
Definition is_dash (c : Z) : bool := existsb (Z.eqb c) (u "-").

(** A slug: lowercase ASCII letters, digits and single dashes, with no dash at either end. *)
Definition is_slug (s : pystr) : Prop :=
  Forall (fun c => is_slug_char c = true \/ c = 45) s
  /\ (forall pre post, s <> pre ++ 45 :: 45 :: post)
  /\ (forall rest, s <> 45 :: rest)
  /\ (forall rest, s <> rest ++ [45]).

(** The shape of a research highlight built from the elements [els]: an id
    and a title from the cleaned text of an [h1] / [h2] / [h3] element of
    [els] that carries a topic marker and not the section title, long
    paragraphs, an image whose source names a highlight or research picture,
    no publications. *)
Definition hl_inv (lib : pylib) (els : list node) (h : highlight) : Prop :=
  (exists e text, In e els
     /\ is_tag ["h1"; "h2"; "h3"]%string e = true
     /\ text = clean_text lib (get_text e)
     /\ contains (u "Research Highlight") text = false
     /\ highlight_marker text = true
     /\ h_id h = slugify (str_lower lib text)
     /\ ((has_cjk text = true /\ h_title_zh h = text /\ h_title_en h = [])
         \/ (has_cjk text = false /\ h_title_en h = text /\ h_title_zh h = [])))
  /\ Forall (fun p => (50 < length p)%nat) (h_description h)
  /\ (h_image h = None
      \/ exists src, h_image h = Some (make_absolute_url lib src)
               /\ (contains (u "highlight") (str_lower lib src) = true
                   \/ contains (u "research") (str_lower lib src) = true))
  /\ h_publications h = [].

(** [str(y)] is four digits that read back as [y], for each [y] in 1950..2049. *)
Definition years_ok : bool :=
  forallb (fun i => let y := 1950 + Z.of_nat i in
                    let s := z_to_dec y in
                    (length s =? 4)%nat && forallb is_ascii_digit s && (digits_value s =? y))
          (seq 0 100).

(** The news items of the content root in page order, before sorting. *)
Definition news_in_page_order (lib : pylib) (content : node) : list news_item :=
  flat_map (fun li => match news_of_li lib li with Some it => [it] | None => [] end)
           (find_all ["li"%string] content).

(** The news item has sort key [(y, m)]. *)
Definition same_key (y m : Z) (it : news_item) : bool := (n_year it =? y) && (n_month it =? m).

(** The shape of a research project record. *)
Definition project_ok (p : project) : Prop :=
  (exists number, number <> [] /\ forallb is_digit number = true
     /\ p_id p = u "project-" ++ number /\ p_number p = digits_value number)
  /\ p_description p = []
  /\ (p_title_zh p = [] \/ has_cjk (p_title_zh p) = true)
  /\ (p_title_en p = [] \/ has_cjk (p_title_en p) = false).

(** A header that opens the projects section. *)
Definition project_header (lib : pylib) (e : node) : bool :=
  is_tag ["h1"; "h2"; "h3"]%string e
  && (contains (u "Research Project") (clean_text lib (get_text e))
      || contains [0x7814; 0x7a76; 0x8a08; 0x756b] (clean_text lib (get_text e))).

(** The number of people in all six categories. *)
Definition roster_size (r : roster) : nat :=
  length (r_phd_students r) + length (r_masters_students r) + length (r_undergrads r)
  + length (r_visiting r) + length (r_alumni r) + length (r_postdocs r).

(** A header whose text names the alumni section or a category keyword. *)
Definition people_header_kw (lib : pylib) (e : node) : bool :=
  let text_lower := str_lower lib (clean_text lib (get_text e)) in
  is_tag ["h1"; "h2"; "h3"; "h4"]%string e
  && (contains (u "alumni") text_lower
      || existsb (fun kc => contains (fst kc) text_lower) category_keywords).

(** Non-empty, with no whitespace at either end. *)
Definition stripped (r : pystr) : Prop :=
  r <> [] /\ head_ok is_space r /\ (forall c rest, r = rest ++ [c] -> is_space c = false).

(** The year and research fields of a person record. *)
Definition person_ok (m : person) : Prop :=
  1950 <= year_start m <= 2049 /\ Forall stripped (research m).

(** Every person of every category satisfies [person_ok]. *)
Definition roster_ok (r : roster) : Prop := forall c, Forall person_ok (bucket c r).

(** The PI fields that [extract_pi_info] initialises and never assigns. *)
Definition pi_fixed_fields (p : pi_info) : list pystr :=
  [pi_name_zh p; pi_name_en p; pi_title p; pi_department p; pi_institution p;
   pi_email p; pi_email2 p; pi_phone p; pi_fax p; pi_address p].

(** The four list fields of the PI record. *)
Definition pi_lists (p : pi_info) : list (list pystr) :=
  [pi_education p; pi_positions p; pi_awards p; pi_societies p].

(** ** Concrete inputs *)

Definition ascii_lower (c : Z) : Z := if (65 <=? c) && (c <=? 90) then c + 32 else c.

(** A library instance that agrees with Python on ASCII text: NFKC and
    lower-casing as they act there, and [urljoin] resolving a reference
    against the directory of the base URL. *)
Definition sample_lib : pylib :=
  {| nfkc := fun s => s;
     str_lower := map ascii_lower;
     urljoin := fun base href =>
                  if starts_with (u "/") href then u "https://sbl.csie.org" ++ href
                  else rev (lstrip_by (fun c => negb (c =? 47)) (rev base)) ++ href |}.

Definition txt (tag : string) (s : pystr) : node := Elem tag [] [Text s].

(** A page whose content root holds [els]. *)
Definition page (els : list node) : node :=
  Elem "[document]" [] [Elem "html" [] [Elem "body" []
    [Elem "div" [("class"%string, u "dokuwiki")] els]]].

Definition news_sample_doc : node :=
  page [Elem "ul" [] [txt "li" (u "24.03 A"); txt "li" (u "24.01 B"); txt "li" (u "23.12 C")]].

Definition hl_para1 : pystr :=
  u "ATP synthase on the surface of cancer cells is a target for new drug design.".
Definition hl_para2 : pystr :=
  u "Big data from public omics repositories reveals regulators of cancer cell fate.".

(** Two headers carrying topic markers, each followed by a long paragraph. *)
Definition hl_sample_doc : node :=
  page [txt "h2" (u "Ectopic ATP synthase"); txt "p" hl_para1;
        txt "h2" (u "Big Data analysis"); txt "p" hl_para2].

Definition member_line : pystr :=
  [0x738b; 0x5c0f; 0x660e] ++ u " Wang Ming (21-LS) systems biology, genomics".

Definition no_root_doc : node :=
  Elem "[document]" [] [Elem "html" [] [Elem "body" [] [txt "p" (u "Not Found")]]].

Definition media_url : pystr :=
  u "https://sbl.csie.org/JuanLab/lib/exe/fetch.php?media=lab.png&w=200".

Definition img_doc : node :=
  page [Elem "img" [("src"%string, media_url); ("alt"%string, u "lab")] []].

(** The first item of [news_sample_doc]. *)
Definition news_item_2403 : news_item :=
  {| n_date := u "2024-03"; n_year := 2024; n_month := 3; n_title := u "A";
     n_link := None; n_category := u "general" |}.

(** The content root of [page els]. *)
Definition root (els : list node) : node :=
  Elem "div" [("class"%string, u "dokuwiki")] els.

(** The highlight extracted from [hl_sample_doc]. *)
Definition hl_sample_first : highlight :=
  {| h_id := u "ectopic-atp-synthase"; h_title_zh := []; h_title_en := u "Ectopic ATP synthase";
     h_description := [hl_para1; hl_para2]; h_image := None; h_publications := [] |}.

(** The elements of [news_sample_doc]. *)
Definition news_sample_items : list node :=
  [Elem "ul" [] [txt "li" (u "24.03 A"); txt "li" (u "24.01 B"); txt "li" (u "23.12 C")]].

(** A projects section with one numbered project. *)
Definition proj_sample_doc : node :=
  page [txt "h2" (u "Research Projects"); txt "p" (u "1. Cancer systems biology")].

(** The project extracted from [proj_sample_doc]. *)
Definition proj_sample_first : project :=
  {| p_id := u "project-1"; p_number := 1; p_title_zh := [];
     p_title_en := u "Cancer systems biology"; p_description := [] |}.

(** A PhD header, the member line and a one-character item. *)
Definition members_sample_els : list node :=
  [txt "h2" (u "PhD Students"); Elem "ul" [] [txt "li" member_line; txt "li" (u "x")]].

(** The person parsed from [member_line]. *)
Definition members_sample_person : person :=
  {| name_zh := [0x738b; 0x5c0f; 0x660e]; name_en := u "Wang Ming"; year_start := 2021;
     department := u "LS"; research := [u "systems biology"; u "genomics"];
     photo := None; email := None |}.

(** * Properties *)

(** ** Research highlights *)

Lemma highlight_step_keeps_closed_list lib st e :
  fst st = [] -> fst (highlight_step lib st e) = [].
Proof.
  destruct st as [hs cur]; simpl; intros ->.
  unfold highlight_step.
  destruct (is_tag _ e); [| destruct (String.eqb _ "a"); [| destruct (String.eqb _ "p")]].
  - destruct (contains _ _); [reflexivity |].
    destruct cur; simpl; [reflexivity |].
    destruct (highlight_marker _); reflexivity.
  - destruct (find_tag _ _), cur; try reflexivity.
    destruct (_ || _); reflexivity.
  - destruct cur; [| reflexivity].
    destruct (_ && _); reflexivity.
  - reflexivity.
Qed.

Lemma highlight_run_keeps_closed_list lib els st :
  fst st = [] -> fst (fold_left (highlight_step lib) els st) = [].
Proof.
  revert st; induction els as [| e els IH]; simpl; intros st H; [exact H |].
  apply IH, highlight_step_keeps_closed_list, H.
Qed.

(** C9: the highlights extractor returns at most one highlight: a highlight
    is opened only while none is open, and the open one is only closed at the
    end of the traversal. *)
Theorem research_highlights_at_most_one :
  forall (lib : pylib) (soup : node),
    (length (extract_research_highlights lib soup) <= 1)%nat.
Proof.
  intros lib soup; unfold extract_research_highlights.
  destruct (find_content soup) as [content |]; [| simpl; lia].
  pose proof (highlight_run_keeps_closed_list lib (highlight_elements content) ([], None) eq_refl) as H.
  destruct (fold_left _ _ _) as [hs cur]; simpl in H; subst hs.
  destruct cur; simpl; lia.
Qed.

(** Rewrites every [nfkc lib s] with [s] an ASCII literal to [s]. *)
Ltac nfkc_ascii Hn :=
  repeat match goal with
         | |- context [nfkc ?lib ?s] => rewrite (Hn s) by reflexivity
         end.

(** Evaluate a goal whose library calls are all NFKC of ASCII text. *)
Ltac eval_ascii Hn := repeat (progress (simpl; nfkc_ascii Hn)).

(** C1: the highlight opened at the first header with a topic marker is not
    closed at the next header with a marker: on a page with two marked
    sections the extractor returns one highlight, titled by the first
    header, holding the paragraphs of both sections. *)
Theorem highlights_second_marker_not_closed :
  forall lib : pylib, nfkc_fixes_ascii lib ->
    map (fun h => (h_title_en h, h_description h))
        (extract_research_highlights lib hl_sample_doc)
    = [(u "Ectopic ATP synthase", [hl_para1; hl_para2])].
Proof.
  intros lib Hn.
  unfold extract_research_highlights, hl_sample_doc, page, highlight_elements.
  eval_ascii Hn. reflexivity.
Qed.

(** ** Missing content root *)

(** C7: on a page without the content root every extractor returns its
    default: no news, no highlights, no projects, the roster with its six
    empty categories, and the PI record with only its constant fields.  The
    extractors are total functions: no input makes them fail. *)
Theorem extractors_default_without_content_root :
  forall (lib : pylib) (soup : node),
    find_content soup = None ->
    extract_news lib soup = []
    /\ extract_research_highlights lib soup = []
    /\ extract_research_projects lib soup = []
    /\ extract_people lib soup = empty_roster
    /\ extract_pi_info lib soup = pi_default.
Proof.
  intros lib soup H.
  unfold extract_news, extract_research_highlights, extract_research_projects,
    extract_people, extract_pi_info.
  rewrite H. repeat split.
Qed.

Lemma extractors_default_without_content_root_witness :
  find_content no_root_doc = None
  /\ extract_news sample_lib no_root_doc = []
  /\ extract_research_highlights sample_lib no_root_doc = []
  /\ extract_research_projects sample_lib no_root_doc = []
  /\ extract_people sample_lib no_root_doc = empty_roster
  /\ extract_pi_info sample_lib no_root_doc = pi_default.
Proof.
  split; [reflexivity |].
  apply (extractors_default_without_content_root sample_lib no_root_doc).
  reflexivity.
Defined.

(** ** The two copies of the news extractor *)

(** C10: [extract_news] of [scripts/scrape_juanlab.py] and of
    [juanlab-astro/scripts/scrape_juanlab.py] return the same list on every
    page. *)
Theorem extract_news_copies_agree :
  forall (lib : pylib) (soup : node),
    ScriptsCopy.extract_news lib soup = extract_news lib soup.
Proof. reflexivity. Qed.

(** ** News order *)

Lemma news_ge_total a b : news_ge a b = false -> news_ge b a = true.
Proof.
  unfold news_ge. intros H.
  apply orb_false_iff in H as [H1 H2].
  apply Z.ltb_ge in H1.
  apply orb_true_iff.
  destruct (Z.eq_dec (n_year a) (n_year b)) as [E | E].
  - right. rewrite E, Z.eqb_refl in H2 |- *. simpl in *.
    apply Z.leb_gt in H2. apply Z.leb_le; lia.
  - left. apply Z.ltb_lt. lia.
Qed.

Lemma insert_news_sorted x l :
  Sorted (fun a b => news_ge a b = true) l ->
  Sorted (fun a b => news_ge a b = true) (insert_news x l).
Proof.
  induction 1 as [| y l Hl IH Hhd]; simpl.
  - repeat constructor.
  - destruct (news_ge x y) eqn:E.
    + constructor; [constructor; assumption | constructor; exact E].
    + constructor; [exact IH |].
      destruct l as [| z l]; simpl; [constructor; apply news_ge_total, E |].
      inversion Hhd; subst.
      destruct (news_ge x z); constructor; [apply news_ge_total, E | assumption].
Qed.

Lemma sort_news_sorted l : Sorted (fun a b => news_ge a b = true) (sort_news l).
Proof.
  induction l as [| x l IH]; simpl; [constructor | apply insert_news_sorted, IH].
Qed.

Lemma Sorted_weaken {A} (R R' : A -> A -> Prop) :
  (forall a b, R a b -> R' a b) -> forall l, Sorted R l -> Sorted R' l.
Proof.
  intros HR l H; induction H as [| a l Hl IH Hhd]; constructor; [exact IH |].
  destruct Hhd; constructor; apply HR; assumption.
Qed.

Lemma news_ge_key a b :
  news_ge a b = true ->
  n_year b < n_year a \/ (n_year b = n_year a /\ n_month b <= n_month a).
Proof.
  unfold news_ge; intros H; apply orb_true_iff in H as [H | H].
  - left; apply Z.ltb_lt, H.
  - apply andb_true_iff in H as [H1 H2].
    apply Z.eqb_eq in H1; apply Z.leb_le in H2. right; lia.
Qed.

(** C5: the news list is sorted by descending [(year, month)]: each item's
    key is at least the next one's.  On the items "24.03 A", "24.01 B",
    "23.12 C" the titles come out as A, B, C. *)
Theorem news_sorted_descending :
  (forall (lib : pylib) (soup : node),
     Sorted (fun a b => n_year b < n_year a
                        \/ (n_year b = n_year a /\ n_month b <= n_month a))
            (extract_news lib soup))
  /\ (forall lib : pylib, nfkc_fixes_ascii lib ->
        map n_title (extract_news lib news_sample_doc) = [u "A"; u "B"; u "C"]).
Proof.
  split.
  - intros lib soup; unfold extract_news.
    apply (Sorted_weaken _ _ news_ge_key).
    destruct (find_content soup); [apply sort_news_sorted | constructor].
  - intros lib Hn. unfold extract_news, news_sample_doc, page, news_of_li.
    eval_ascii Hn. reflexivity.
Qed.

Lemma nfkc_fixes_ascii_sample : nfkc_fixes_ascii sample_lib.
Proof. intros s _; reflexivity. Qed.

Lemma news_sorted_descending_witness :
  nfkc_fixes_ascii sample_lib
  /\ map n_title (extract_news sample_lib news_sample_doc) = [u "A"; u "B"; u "C"].
Proof.
  split; [exact nfkc_fixes_ascii_sample |].
  apply (proj2 news_sorted_descending sample_lib).
  exact nfkc_fixes_ascii_sample.
Defined.

Lemma highlights_second_marker_not_closed_witness :
  nfkc_fixes_ascii sample_lib
  /\ map (fun h => (h_title_en h, h_description h))
         (extract_research_highlights sample_lib hl_sample_doc)
     = [(u "Ectopic ATP synthase", [hl_para1; hl_para2])].
Proof.
  split; [exact nfkc_fixes_ascii_sample |].
  apply (highlights_second_marker_not_closed sample_lib).
  exact nfkc_fixes_ascii_sample.
Defined.

(** ** The image manifest *)

Lemma str_eqb_eq a b : str_eqb a b = true <-> a = b.
Proof.
  revert b; induction a as [| x a IH]; intros [| y b]; simpl; split; intros H;
    try discriminate; try reflexivity.
  - apply andb_true_iff in H as [H1 H2]. apply Z.eqb_eq in H1. apply IH in H2. subst; reflexivity.
  - injection H as -> ->. apply andb_true_iff; split; [apply Z.eqb_refl | apply IH; reflexivity].
Qed.

Lemma existsb_str_eqb a l : existsb (str_eqb a) l = true <-> In a l.
Proof.
  rewrite existsb_exists; split.
  - intros [x [Hx E]]. apply str_eqb_eq in E; subst; exact Hx.
  - intros H; exists a; split; [exact H | apply str_eqb_eq; reflexivity].
Qed.

Lemma dedup_fold_first_occurrences l :
  forall seen acc earlier,
    (forall s, In s seen <-> In s (map i_url earlier)) ->
    snd (fold_left (fun (acc : list pystr * list image_ref) img =>
                      let '(seen_urls, unique_images) := acc in
                      if existsb (str_eqb (i_url img)) seen_urls then acc
                      else (i_url img :: seen_urls, unique_images ++ [img]))
                   l (seen, acc))
    = acc ++ first_occurrences earlier l.
Proof.
  induction l as [| x l IH]; intros seen acc earlier Hs; simpl.
  - rewrite app_nil_r; reflexivity.
  - assert (E : existsb (str_eqb (i_url x)) seen = existsb (str_eqb (i_url x)) (map i_url earlier)).
    { destruct (existsb (str_eqb (i_url x)) seen) eqn:E1;
        destruct (existsb (str_eqb (i_url x)) (map i_url earlier)) eqn:E2; try reflexivity.
      - apply existsb_str_eqb in E1. apply Hs in E1.
        apply existsb_str_eqb in E1. congruence.
      - apply existsb_str_eqb in E2. apply Hs in E2.
        apply existsb_str_eqb in E2. congruence. }
    rewrite E. destruct (existsb _ (map i_url earlier)) eqn:E2.
    + apply IH. intros s; rewrite map_app, in_app_iff, Hs; simpl; split.
      * intros H; left; exact H.
      * intros [H | [H | []]]; [exact H |]. subst. apply existsb_str_eqb, E2.
    + rewrite (IH _ _ (earlier ++ [x])), <- app_assoc; [reflexivity |].
      intros s; simpl; rewrite map_app, in_app_iff, Hs; simpl; tauto.
Qed.

Lemma first_occurrences_fresh earlier l x :
  In x (first_occurrences earlier l) -> ~ In (i_url x) (map i_url earlier).
Proof.
  revert earlier; induction l as [| y l IH]; intros earlier; simpl; [tauto |].
  destruct (existsb (str_eqb (i_url y)) (map i_url earlier)) eqn:E.
  - intros H Hin. apply (IH _ H). rewrite map_app, in_app_iff; left; exact Hin.
  - intros [<- | H].
    + intros Hin. apply existsb_str_eqb in Hin. congruence.
    + intros Hin. apply (IH _ H). rewrite map_app, in_app_iff; left; exact Hin.
Qed.

Lemma first_occurrences_nodup earlier l :
  NoDup (map i_url (first_occurrences earlier l)).
Proof.
  revert earlier; induction l as [| y l IH]; intros earlier; simpl; [constructor |].
  destruct (existsb (str_eqb (i_url y)) (map i_url earlier)); [apply IH |].
  simpl; constructor; [| apply IH].
  intros Hin. apply in_map_iff in Hin as [z [Ez Hz]].
  apply first_occurrences_fresh in Hz. apply Hz.
  rewrite map_app, in_app_iff; right; simpl; left; symmetry; exact Ez.
Qed.

Lemma first_occurrences_urls earlier l s :
  In s (map i_url earlier ++ map i_url l)
  <-> In s (map i_url earlier ++ map i_url (first_occurrences earlier l)).
Proof.
  revert earlier; induction l as [| y l IH]; intros earlier; simpl; [tauto |].
  pose proof (IH (earlier ++ [y])) as H.
  rewrite map_app, !in_app_iff in H; simpl in H.
  destruct (existsb (str_eqb (i_url y)) (map i_url earlier)) eqn:E.
  - apply existsb_str_eqb in E.
    assert (i_url y = s -> In s (map i_url earlier)) by (intros <-; exact E).
    rewrite !in_app_iff; simpl; tauto.
  - rewrite !in_app_iff; simpl; tauto.
Qed.

(** C6: the manifest is the accumulated list with every entry dropped whose
    URL string already occurs earlier: it keeps first occurrences, in order;
    its URLs are pairwise distinct; and every URL string of the accumulated
    list is in it.  Since the comparison is equality of strings, two
    references whose URLs differ in any way (for instance in their
    percent-encoding) both stay. *)
Theorem images_manifest_first_occurrences :
  forall (lib : pylib) (start_soup members_soup pi_soup : option node),
    let all := all_images lib start_soup members_soup pi_soup in
    let manifest := images_manifest lib start_soup members_soup pi_soup in
    manifest = first_occurrences [] all
    /\ NoDup (map i_url manifest)
    /\ (forall url, In url (map i_url all) <-> In url (map i_url manifest)).
Proof.
  intros lib st mb pi all manifest.
  assert (E : manifest = first_occurrences [] all).
  { unfold manifest, images_manifest, dedup_images.
    rewrite (dedup_fold_first_occurrences _ [] [] []); [reflexivity |].
    intros s; simpl; tauto. }
  split; [exact E |]. rewrite E. split; [apply first_occurrences_nodup |].
  intros url. exact (first_occurrences_urls [] all url).
Qed.

(** ** Image file names *)

Lemma extract_image_urls_from_img lib soup r :
  In r (extract_image_urls lib soup) ->
  exists img, In img (find_all ["img"%string] soup) /\ image_of_img lib img = Some r.
Proof.
  unfold extract_image_urls.
  assert (G : forall imgs acc,
             In r (fold_left (fun images img => match image_of_img lib img with
                                                 | Some r => images ++ [r]
                                                 | None => images
                                                 end) imgs acc) ->
             In r acc \/ exists img, In img imgs /\ image_of_img lib img = Some r).
  { induction imgs as [| i imgs IH]; intros acc H; simpl in H; [left; exact H |].
    destruct (IH _ H) as [H1 | [img [H2 H3]]].
    - destruct (image_of_img lib i) eqn:E; [| left; exact H1].
      apply in_app_iff in H1 as [H1 | [<- | []]]; [left; exact H1 |].
      right; exists i; split; [left | ]; auto.
    - right; exists img; split; [right |]; auto. }
  intros H; destruct (G _ _ H) as [[] | Hx]; exact Hx.
Qed.

(** C8 (as the code does it): the file name of a collected reference is the
    URL-decoded text after the last "media=" of its URL, up to the end of the
    URL, when the URL contains "media="; otherwise the URL-decoded last path
    segment of the URL with its query string cut off. *)
Theorem image_filename_rule :
  forall (lib : pylib) (soup : node) (r : image_ref),
    In r (extract_image_urls lib soup) ->
    i_filename r =
      if contains (u "media=") (i_url r)
      then unquote (last_of (split_on (u "media=") (i_url r)))
      else unquote (hd [] (split_on (u "?") (last_of (split_on (u "/") (i_url r))))).
Proof.
  intros lib soup r H.
  destruct (extract_image_urls_from_img lib soup r H) as [img [_ E]].
  unfold image_of_img in E.
  destruct (_ || _); [| discriminate].
  injection E as <-. reflexivity.
Qed.

Lemma image_filename_rule_witness :
  In {| i_url := media_url; i_filename := u "lab.png&w=200"; i_alt := u "lab" |}
     (extract_image_urls sample_lib img_doc)
  /\ i_filename {| i_url := media_url; i_filename := u "lab.png&w=200"; i_alt := u "lab" |}
     = unquote (last_of (split_on (u "media=") media_url)).
Proof.
  assert (H : In {| i_url := media_url; i_filename := u "lab.png&w=200"; i_alt := u "lab" |}
                 (extract_image_urls sample_lib img_doc)) by (vm_compute; left; reflexivity).
  split; [exact H |].
  rewrite (image_filename_rule sample_lib img_doc _ H).
  reflexivity.
Defined.

(** C8 as stated fails: for the URL
    ".../lib/exe/fetch.php?media=lab.png&w=200" the value of the [media]
    query parameter is "lab.png", but the recorded file name is
    "lab.png&w=200". *)
Lemma image_filename_not_media_parameter :
  ~ (forall (lib : pylib) (soup : node) (r : image_ref) (v : pystr),
       In r (extract_image_urls lib soup) ->
       media_query_value (i_url r) = Some v ->
       i_filename r = unquote v).
Proof.
  intros H.
  assert (Hin : In {| i_url := media_url; i_filename := u "lab.png&w=200"; i_alt := u "lab" |}
                   (extract_image_urls sample_lib img_doc)) by (vm_compute; left; reflexivity).
  specialize (H sample_lib img_doc _ (u "lab.png") Hin).
  assert (Hv : media_query_value media_url = Some (u "lab.png")) by (vm_compute; reflexivity).
  specialize (H Hv). vm_compute in H. discriminate.
Qed.

(** ** Century inference *)

Lemma insert_news_in x l y : In y (insert_news x l) -> y = x \/ In y l.
Proof.
  induction l as [| z l IH]; simpl; [intros [<- | []]; left; reflexivity |].
  destruct (news_ge x z); simpl; [intros [<- | H]; [left | right]; auto |].
  intros [-> | H]; [right; left; reflexivity |].
  destruct (IH H); tauto.
Qed.

Lemma sort_news_in l y : In y (sort_news l) -> In y l.
Proof.
  induction l as [| x l IH]; simpl; [tauto |].
  intros H; destruct (insert_news_in _ _ _ H); [left | right; apply IH]; auto.
Qed.

Lemma news_fold_in lib lis acc it :
  In it (fold_left (fun acc li => match news_of_li lib li with
                                  | Some item => acc ++ [item]
                                  | None => acc
                                  end) lis acc) ->
  In it acc \/ exists li, In li lis /\ news_of_li lib li = Some it.
Proof.
  revert acc; induction lis as [| li lis IH]; intros acc H; simpl in H; [left; exact H |].
  destruct (IH _ H) as [H1 | [l' [H2 H3]]].
  - destruct (news_of_li lib li) eqn:E; [| left; exact H1].
    apply in_app_iff in H1 as [H1 | [<- | []]]; [left; exact H1 |].
    right; exists li; split; [left |]; auto.
  - right; exists l'; split; [right |]; auto.
Qed.

Lemma news_match_year text ys ms title :
  news_match text = Some (ys, ms, title) ->
  exists d1 d2 rest, text = d1 :: d2 :: rest /\ ys = [d1; d2]
                     /\ is_digit d1 = true /\ is_digit d2 = true.
Proof.
  unfold news_match.
  destruct text as [| y1 [| y2 [| dot [| m1 [| m2 r]]]]]; try discriminate.
  destruct (is_digit y1) eqn:E1, (is_digit y2) eqn:E2; simpl; try discriminate.
  destruct (_ && _); [| discriminate].
  destruct (ws_then_rest 1 r); [| discriminate].
  intros H; injection H as <- _ _.
  exists y1, y2, (dot :: m1 :: m2 :: r); auto.
Qed.

(** C4: a two-digit year token [Y] becomes [2000 + Y] when [Y < 50] and
    [1900 + Y] otherwise, in the news extractor (the year of every news item
    comes from the two leading digits of the list item that produced it) and in the people
    extractor (the year of a member matched by the member pattern comes from
    the first two-digit run of the parenthesised info).  The digits are
    decimal digits of any script, [Y] being their [int] value.  Project
    records carry no year. *)
Theorem century_inference :
  (forall (lib : pylib) (soup : node) (it : news_item),
     In it (extract_news lib soup) ->
     exists content li d1 d2 rest,
       find_content soup = Some content
       /\ In li (find_all ["li"%string] content)
       /\ news_of_li lib li = Some it
       /\ clean_text lib (get_text li) = d1 :: d2 :: rest
       /\ is_digit d1 = true /\ is_digit d2 = true
       /\ let y := digits_value [d1; d2] in
          (y < 50 -> n_year it = 2000 + y) /\ (50 <= y -> n_year it = 1900 + y))
  /\ (forall (lib : pylib) (element : node) (name_part info_part rest_part y_str : pystr),
        search_two_digits info_part = Some y_str ->
        let y := digits_value y_str in
        let m := member_of_parts lib element name_part info_part rest_part in
        (y < 50 -> year_start m = 2000 + y) /\ (50 <= y -> year_start m = 1900 + y)).
Proof.
  split.
  - intros lib soup it H. unfold extract_news in H.
    destruct (find_content soup) as [content |] eqn:Ec; [| destruct H].
    apply sort_news_in, news_fold_in in H as [[] | [li [Hli E]]].
    pose proof E as E0. unfold news_of_li in E.
    destruct (news_match (clean_text lib (get_text li))) as [[[ys ms] title] |] eqn:M;
      [| discriminate].
    injection E as <-. simpl.
    destruct (news_match_year _ _ _ _ M) as [d1 [d2 [rest [Ht [-> [H1 H2]]]]]].
    exists content, li, d1, d2, rest. repeat split; auto.
    + intros Hy. apply Z.ltb_lt in Hy. rewrite Hy. reflexivity.
    + intros Hy. apply Z.ltb_ge in Hy. rewrite Hy. reflexivity.
  - intros lib element name_part info_part rest_part y_str H y m.
    unfold m, member_of_parts, parse_year_dept. rewrite H.
    destruct (split_names name_part). simpl. fold y. split.
    + intros Hy. apply Z.ltb_lt in Hy. rewrite Hy. reflexivity.
    + intros Hy. apply Z.ltb_ge in Hy. rewrite Hy. reflexivity.
Qed.

Lemma century_inference_witness :
  (In news_item_2403 (extract_news sample_lib news_sample_doc)
   /\ exists content li d1 d2 rest,
        find_content news_sample_doc = Some content
        /\ In li (find_all ["li"%string] content)
        /\ news_of_li sample_lib li = Some news_item_2403
        /\ clean_text sample_lib (get_text li) = d1 :: d2 :: rest
        /\ is_digit d1 = true /\ is_digit d2 = true
        /\ let y := digits_value [d1; d2] in
           (y < 50 -> n_year news_item_2403 = 2000 + y)
           /\ (50 <= y -> n_year news_item_2403 = 1900 + y))
  /\ (search_two_digits (u "21-LS") = Some (u "21")
      /\ year_start (member_of_parts sample_lib (txt "li" member_line)
                                     (u "Wang Ming") (u "21-LS") []) = 2021).
Proof.
  assert (Hin : In news_item_2403 (extract_news sample_lib news_sample_doc))
    by (vm_compute; left; reflexivity).
  split; [split; [exact Hin | exact (proj1 century_inference _ _ _ Hin)] |].
  split; [reflexivity |].
  exact (proj1 (proj2 century_inference sample_lib (txt "li" member_line)
                  (u "Wang Ming") (u "21-LS") [] (u "21") eq_refl)
               ltac:(vm_compute; reflexivity)).
Defined.

(** ** The people roster *)
















(** ** Further properties of the scraper *)

Ltac zdec := repeat match goal with
   | |- context [?a <=? ?b] => first [rewrite (proj2 (Z.leb_le a b)) by lia | rewrite (proj2 (Z.leb_gt a b)) by lia]
   | |- context [?a <? ?b] => first [rewrite (proj2 (Z.ltb_lt a b)) by lia | rewrite (proj2 (Z.ltb_ge a b)) by lia]
   | |- context [?a =? ?b] => first [rewrite (proj2 (Z.eqb_eq a b)) by lia | rewrite (proj2 (Z.eqb_neq a b)) by lia]
   end.

Lemma some_eq {A} (x y : A) : Some x = Some y -> x = y.
Proof. congruence. Qed.

Lemma utf8_lead_2 b : 194 <= b <= 223 -> utf8_lead b = Some (b - 192, [(128, 191)]).
Proof. intros H. unfold utf8_lead. zdec. reflexivity. Qed.

Lemma utf8_lead_3 b : 224 <= b <= 239 ->
  utf8_lead b = Some (b - 224, [(if b =? 224 then 160 else 128, if b =? 237 then 159 else 191); (128, 191)]).
Proof.
  intros H. assert (b = 224 \/ 225 <= b <= 236 \/ b = 237 \/ 238 <= b <= 239) as [-> | [Hb | [-> | Hb]]] by lia;
    try reflexivity; unfold utf8_lead; zdec; reflexivity.
Qed.

Lemma utf8_lead_4 b : 240 <= b <= 244 ->
  utf8_lead b = Some (b - 240, [(if b =? 240 then 144 else 128, if b =? 244 then 143 else 191);
                                (128, 191); (128, 191)]).
Proof.
  intros H. assert (b = 240 \/ 241 <= b <= 243 \/ b = 244) as [-> | [Hb | ->]] by lia;
    try reflexivity; unfold utf8_lead; zdec; reflexivity.
Qed.

Lemma utf8_decode_go_ascii_cons b rest f : 0 <= b < 128 ->
  utf8_decode_go (S f) (b :: rest) = b :: utf8_decode_go f rest.
Proof. intros H. simpl. zdec. reflexivity. Qed.

Lemma utf8_decode_go_lead b rest f v rs :
  128 <= b -> utf8_lead b = Some (v, rs) ->
  utf8_decode_go (S f) (b :: rest) =
    match utf8_cont rs v rest with
    | (true, cp, rest') => cp :: utf8_decode_go f rest'
    | (false, _, rest') => 65533 :: utf8_decode_go f rest'
    end.
Proof. intros H E. simpl. zdec. rewrite E. reflexivity. Qed.

Lemma utf8_cont_cons lo hi rs acc b bs : lo <= b <= hi ->
  utf8_cont ((lo, hi) :: rs) acc (b :: bs) = utf8_cont rs (acc * 64 + (b - 128)) bs.
Proof. intros H. simpl. zdec. reflexivity. Qed.

Lemma utf8_encode_char_decode c b rest f :
  utf8_encode_char c = Some b ->
  utf8_decode_go (S f) (b ++ rest) = c :: utf8_decode_go f rest.
Proof.
  unfold utf8_encode_char.
  pose proof (Z.div_mod c 64 ltac:(lia)) as D1.
  pose proof (Z.mod_pos_bound c 64 ltac:(lia)) as B1.
  pose proof (Z.div_mod (c / 64) 64 ltac:(lia)) as D2.
  pose proof (Z.mod_pos_bound (c / 64) 64 ltac:(lia)) as B2.
  pose proof (Z.div_mod (c / 4096) 64 ltac:(lia)) as D3.
  pose proof (Z.mod_pos_bound (c / 4096) 64 ltac:(lia)) as B3.
  rewrite Z.div_div in D2 by lia. rewrite Z.div_div in D3 by lia.
  change (64 * 64) with 4096 in D2. change (4096 * 64) with 262144 in D3.
  destruct (Z.ltb_spec c 0); [discriminate |].
  destruct (Z.ltb_spec c 128).
  { intros E; apply some_eq in E; subst b. apply utf8_decode_go_ascii_cons. lia. }
  destruct (Z.ltb_spec c 2048).
  { intros E; apply some_eq in E; subst b. cbn [app].
    rewrite (utf8_decode_go_lead (192 + c / 64) _ _ _ _ ltac:(lia) (utf8_lead_2 (192 + c / 64) ltac:(lia))).
    rewrite utf8_cont_cons by lia. cbn [utf8_cont].
    f_equal. lia. }
  destruct ((55296 <=? c) && (c <=? 57343)) eqn:Sur; [discriminate |].
  apply andb_false_iff in Sur.
  destruct (Z.ltb_spec c 65536).
  { intros E; apply some_eq in E; subst b. cbn [app].
    rewrite (utf8_decode_go_lead (224 + c / 4096) _ _ _ _ ltac:(lia) (utf8_lead_3 (224 + c / 4096) ltac:(lia))).
    rewrite utf8_cont_cons.
    2:{ destruct (Z.eqb_spec (224 + c / 4096) 224); destruct (Z.eqb_spec (224 + c / 4096) 237);
        destruct Sur as [Sur | Sur]; apply Z.leb_gt in Sur || idtac; try lia.
        all: try (apply Z.leb_gt in Sur); lia. }
    rewrite utf8_cont_cons by lia. cbn [utf8_cont].
    f_equal. lia. }
  destruct (Z.ltb_spec c 1114112); [| discriminate].
  { intros E; apply some_eq in E; subst b. cbn [app].
    rewrite (utf8_decode_go_lead (240 + c / 262144) _ _ _ _ ltac:(lia) (utf8_lead_4 (240 + c / 262144) ltac:(lia))).
    rewrite utf8_cont_cons.
    2:{ destruct (Z.eqb_spec (240 + c / 262144) 240); destruct (Z.eqb_spec (240 + c / 262144) 244); lia. }
    rewrite utf8_cont_cons by lia. rewrite utf8_cont_cons by lia. cbn [utf8_cont].
    f_equal. lia. }
Qed.

Lemma utf8_encode_char_len c b : utf8_encode_char c = Some b -> (1 <= length b)%nat.
Proof.
  unfold utf8_encode_char.
  destruct (c <? 0); [discriminate |]. destruct (c <? 128); [intros E; apply some_eq in E; subst; simpl; lia |].
  destruct (c <? 2048); [intros E; apply some_eq in E; subst; simpl; lia |].
  destruct (_ && _); [discriminate |].
  destruct (c <? 65536); [intros E; apply some_eq in E; subst; simpl; lia |].
  destruct (c <? 1114112); [intros E; apply some_eq in E; subst; simpl; lia | discriminate].
Qed.

Lemma utf8_decode_encode s bs :
  utf8_encode s = Some bs -> forall fuel, (length bs <= fuel)%nat -> utf8_decode_go fuel bs = s.
Proof.
  revert bs; induction s as [| c s IH]; intros bs E fuel Hf; simpl in E.
  - apply some_eq in E; subst. destruct fuel; reflexivity.
  - destruct (utf8_encode_char c) as [b |] eqn:Ec; [| discriminate].
    destruct (utf8_encode s) as [bs' |] eqn:Es; [| discriminate].
    apply some_eq in E; subst bs.
    pose proof (utf8_encode_char_len _ _ Ec) as Hl. rewrite length_app in Hf.
    destruct fuel as [| f]; [lia |].
    rewrite (utf8_encode_char_decode _ _ _ _ Ec). f_equal. apply IH; [reflexivity | lia].
Qed.

Lemma utf8_encode_char_bytes c b : utf8_encode_char c = Some b -> Forall (fun x => 0 <= x < 256) b.
Proof.
  unfold utf8_encode_char.
  pose proof (Z.mod_pos_bound c 64 ltac:(lia)).
  pose proof (Z.mod_pos_bound (c / 64) 64 ltac:(lia)).
  pose proof (Z.mod_pos_bound (c / 4096) 64 ltac:(lia)).
  destruct (Z.ltb_spec c 0); [discriminate |].
  destruct (Z.ltb_spec c 128); [intros E; apply some_eq in E; subst; repeat (apply Forall_cons; [cbv beta; Z.div_mod_to_equations; lia |]); apply Forall_nil |].
  destruct (Z.ltb_spec c 2048); [intros E; apply some_eq in E; subst; repeat (apply Forall_cons; [cbv beta; Z.div_mod_to_equations; lia |]); apply Forall_nil |].
  destruct (_ && _); [discriminate |].
  destruct (Z.ltb_spec c 65536); [intros E; apply some_eq in E; subst; repeat (apply Forall_cons; [cbv beta; Z.div_mod_to_equations; lia |]); apply Forall_nil |].
  destruct (Z.ltb_spec c 1114112); [intros E; apply some_eq in E; subst; repeat (apply Forall_cons; [cbv beta; Z.div_mod_to_equations; lia |]); apply Forall_nil | discriminate].
Qed.

Lemma utf8_encode_bytes s bs : utf8_encode s = Some bs -> Forall (fun x => 0 <= x < 256) bs.
Proof.
  revert bs; induction s as [| c s IH]; intros bs E; simpl in E.
  - apply some_eq in E; subst; constructor.
  - destruct (utf8_encode_char c) as [b |] eqn:Ec; [| discriminate].
    destruct (utf8_encode s) as [bs' |] eqn:Es; [| discriminate].
    apply some_eq in E; subst bs. apply Forall_app; split.
    + exact (utf8_encode_char_bytes _ _ Ec).
    + apply IH; reflexivity.
Qed.

Lemma unquote_bytes_cons b s : b <> 37 -> unquote_bytes (b :: s) = b :: unquote_bytes s.
Proof.
  intros H. destruct s as [| x [| y s]];
    (destruct b as [| p | p]; [reflexivity | | reflexivity];
     repeat (destruct p as [p | p |]; try reflexivity); exfalso; apply H; reflexivity).
Qed.

Lemma hex_value_digit d : 0 <= d < 16 -> hex_value (hex_digit d) = Some d.
Proof.
  intros H. assert (d = 0 \/ d = 1 \/ d = 2 \/ d = 3 \/ d = 4 \/ d = 5 \/ d = 6 \/ d = 7 \/ d = 8
                    \/ d = 9 \/ d = 10 \/ d = 11 \/ d = 12 \/ d = 13 \/ d = 14 \/ d = 15) by lia.
  repeat destruct H0 as [-> | H0]; try reflexivity. subst; reflexivity.
Qed.

Lemma unquote_bytes_quote safe bs :
  ~ In 37 safe -> Forall (fun x => 0 <= x < 256) bs ->
  unquote_bytes (concat (map (quote_byte safe) bs)) = bs.
Proof.
  intros Hs; induction 1 as [| b bs Hb Hbs IH]; [reflexivity |].
  cbn [map concat]. unfold quote_byte at 1.
  destruct (always_safe b || existsb (Z.eqb b) safe) eqn:E.
  - assert (b <> 37).
    { intros ->. apply orb_true_iff in E as [E | E]; [discriminate |].
      apply existsb_exists in E as [x [Hx Ex]]. apply Z.eqb_eq in Ex. subst. contradiction. }
    cbn [app]. rewrite unquote_bytes_cons by assumption. rewrite IH. reflexivity.
  - cbn [app].
    pose proof (Z.div_mod b 16 ltac:(lia)). pose proof (Z.mod_pos_bound b 16 ltac:(lia)).
    assert (0 <= b / 16 < 16) by (Z.div_mod_to_equations; lia).
    cbn [unquote_bytes].
    rewrite (hex_value_digit (b / 16)) by lia. rewrite (hex_value_digit (b mod 16)) by lia.
    rewrite IH. f_equal. lia.
Qed.

Lemma always_safe_ascii b : always_safe b = true -> 0 <= b < 128.
Proof.
  unfold always_safe, is_digit. intros H.
  repeat (apply orb_true_iff in H as [H | H]);
    try (apply andb_true_iff in H as [H1 H2]; apply Z.leb_le in H1; apply Z.leb_le in H2);
    try (apply Z.eqb_eq in H); lia.
Qed.

Lemma hex_digit_ascii d : 0 <= d < 16 -> 0 <= hex_digit d < 128.
Proof. unfold hex_digit; destruct (Z.ltb_spec d 10); lia. Qed.

Lemma quote_bytes_ascii safe bs :
  is_ascii_list safe -> Forall (fun x => 0 <= x < 256) bs ->
  is_ascii_list (concat (map (quote_byte safe) bs)).
Proof.
  intros Hs; induction 1 as [| b bs Hb Hbs IH]; [constructor |].
  cbn [map concat]. apply Forall_app; split; [| exact IH].
  unfold quote_byte. destruct (always_safe b) eqn:A; simpl.
  - constructor; [apply always_safe_ascii, A | constructor].
  - destruct (existsb (Z.eqb b) safe) eqn:E.
    + apply existsb_exists in E as [x [Hx Ex]]. apply Z.eqb_eq in Ex; subst.
      constructor; [exact (proj1 (Forall_forall _ _) Hs x Hx) | constructor].
    + assert (0 <= b / 16 < 16) by (Z.div_mod_to_equations; lia).
      assert (0 <= b mod 16 < 16) by (apply Z.mod_pos_bound; lia).
      repeat constructor; try lia; apply hex_digit_ascii; assumption.
Qed.

Lemma ascii_runs_ascii q : q <> [] -> is_ascii_list q -> ascii_runs q = [(true, q)].
Proof.
  induction q as [| c q IH]; intros Hne Ha; [contradiction |].
  inversion Ha as [| c' q' Hc Hq]; subst.
  simpl. rewrite (proj2 (Z.ltb_lt c 128)) by lia.
  destruct q as [| d q]; [reflexivity |].
  rewrite IH by (discriminate || assumption). reflexivity.
Qed.

Lemma contains_pct_false q : contains [37] q = false -> ~ In 37 q.
Proof.
  induction q as [| c q IH]; simpl; [tauto |].
  intros H. apply orb_false_iff in H as [H1 H2].
  intros [-> | Hin]; [discriminate | exact (IH H2 Hin)].
Qed.

Lemma unquote_bytes_no_pct q : ~ In 37 q -> unquote_bytes q = q.
Proof.
  induction q as [| c q IH]; intros H; [reflexivity |].
  rewrite unquote_bytes_cons by (intros ->; apply H; left; reflexivity).
  rewrite IH by (intros Hin; apply H; right; exact Hin). reflexivity.
Qed.

Lemma utf8_decode_go_ascii fuel q : (length q <= fuel)%nat -> is_ascii_list q -> utf8_decode_go fuel q = q.
Proof.
  revert fuel; induction q as [| c q IH]; intros fuel Hf Ha; [destruct fuel; reflexivity |].
  inversion Ha; subst. destruct fuel as [| f]; [simpl in Hf; lia |].
  rewrite utf8_decode_go_ascii_cons by assumption. rewrite IH by (simpl in Hf; lia || assumption).
  reflexivity.
Qed.

(** X1: percent-decoding ([unquote], used for image filenames) inverts the percent-encoding that [fetch_page] applies to a page id ([quote] with an ASCII safe set not containing the percent sign): whenever [quote] succeeds, [unquote] gives back the original string. *)
Theorem unquote_quote safe s q :
  is_ascii_list safe -> ~ In 37 safe -> quote safe s = Some q -> unquote q = s.
Proof.
  intros Hsa Hsp. unfold quote.
  destruct (utf8_encode s) as [bs |] eqn:E; [| discriminate].
  intros Hq; apply some_eq in Hq; subst q.
  pose proof (utf8_encode_bytes _ _ E) as Hb.
  pose proof (unquote_bytes_quote _ _ Hsp Hb) as HU.
  pose proof (quote_bytes_ascii _ _ Hsa Hb) as HA.
  pose proof (utf8_decode_encode _ _ E (length bs) (le_n _)) as HD.
  set (q := concat (map (quote_byte safe) bs)) in *.
  unfold unquote. destruct (contains (u "%") q) eqn:C; simpl.
  - rewrite ascii_runs_ascii by ((destruct q; discriminate) || assumption).
    simpl. rewrite app_nil_r. unfold utf8_decode. rewrite HU. exact HD.
  - apply contains_pct_false in C. rewrite unquote_bytes_no_pct in HU by exact C.
    rewrite <- HD. rewrite <- HU. symmetry.
    apply utf8_decode_go_ascii; [lia | exact HA].
Qed.

Lemma fetch_loop_all_fail url resp N a f :
  (a + f = N)%nat -> (1 <= f)%nat ->
  (forall k, (a <= k < N)%nat -> resp k = None) ->
  exists ev, fetch_loop url resp (Z.of_nat N) a f = (None, ev)
    /\ count_gets ev = f /\ total_sleep ev = 2 ^ (Z.of_nat N - 1) - 2 ^ Z.of_nat a
    /\ gets_only url ev.
Proof.
  revert a; induction f as [| f IH]; intros a Ha Hf Hr; [lia |].
  simpl. rewrite (Hr a) by lia.
  destruct f as [| f].
  - simpl. exists [Get url]. rewrite (proj2 (Z.ltb_ge _ _)) by lia.
    repeat split; simpl; [| repeat constructor].
    replace (Z.of_nat N - 1) with (Z.of_nat a) by lia. lia.
  - destruct (IH (S a) ltac:(lia) ltac:(lia) ltac:(intros k Hk; apply Hr; lia)) as [ev [E [C [T G]]]].
    rewrite E. rewrite (proj2 (Z.ltb_lt _ _)) by lia.
    eexists; split; [reflexivity |]. repeat split.
    + unfold count_gets in C |- *. simpl. rewrite C. reflexivity.
    + unfold total_sleep in T |- *. simpl. rewrite T. rewrite Nat2Z.inj_succ, Z.pow_succ_r by lia. lia.
    + constructor; [reflexivity |]. constructor; [exact I | exact G].
Qed.

Lemma fetch_loop_success url resp N a f k p :
  (a + f = N)%nat -> (a <= k < N)%nat ->
  (forall j, (a <= j < k)%nat -> resp j = None) -> resp k = Some p ->
  exists ev, fetch_loop url resp (Z.of_nat N) a f = (Some p, ev)
    /\ count_gets ev = S (k - a) /\ total_sleep ev = 2 ^ Z.of_nat k - 2 ^ Z.of_nat a + 1
    /\ gets_only url ev.
Proof.
  revert a; induction f as [| f IH]; intros a Ha Hk Hr Hp; [lia |].
  simpl. destruct (Nat.eq_dec a k) as [<- | Hne].
  - rewrite Hp. eexists; split; [reflexivity |].
    repeat split; [unfold count_gets; simpl; lia | unfold total_sleep; simpl; lia | repeat constructor].
  - rewrite (Hr a) by lia.
    destruct (IH (S a) ltac:(lia) ltac:(lia) ltac:(intros j Hj; apply Hr; lia) Hp) as [ev [E [C [T G]]]].
    rewrite E. rewrite (proj2 (Z.ltb_lt _ _)) by lia.
    eexists; split; [reflexivity |]. repeat split.
    + unfold count_gets in C |- *. simpl. rewrite C. f_equal. lia.
    + unfold total_sleep in T |- *. simpl. rewrite T. rewrite Nat2Z.inj_succ, Z.pow_succ_r by lia. lia.
    + constructor; [reflexivity |]. constructor; [exact I | exact G].
Qed.

(** X2: when every request fails, [fetch_page] with at least one retry issues exactly [retries] GET requests to the quoted page URL, sleeps 1 + 2 + ... + 2^(retries-2) = 2^(retries-1) - 1 seconds in total, and returns [None]. *)
Theorem fetch_page_all_fail page_id resp retries q :
  quote (u ":") page_id = Some q -> 1 <= retries ->
  (forall k, (k < Z.to_nat retries)%nat -> resp k = None) ->
  exists ev, fetch_page page_id resp retries = Some (None, ev)
    /\ count_gets ev = Z.to_nat retries
    /\ total_sleep ev = 2 ^ (retries - 1) - 1
    /\ gets_only (DOKU_URL ++ u "?id=" ++ q) ev.
Proof.
  intros Hq Hr Hf. unfold fetch_page. rewrite Hq.
  pose proof (Z2Nat.id retries ltac:(lia)) as HN.
  destruct (fetch_loop_all_fail (DOKU_URL ++ u "?id=" ++ q) resp (Z.to_nat retries) 0 (Z.to_nat retries)
              ltac:(lia) ltac:(lia) ltac:(intros k Hk; apply Hf; lia)) as [ev [E [C [T G]]]].
  rewrite HN in E, T. exists ev. rewrite E. repeat split; auto.
Qed.

(** X3: when the first [k] requests fail and request [k] (counting from 0) succeeds, [fetch_page] returns that page after exactly [k + 1] GET requests to the quoted page URL and 2^k seconds of sleep in total (the backoffs 1 + ... + 2^(k-1) and the final 1 s delay). *)
Theorem fetch_page_first_success page_id resp retries q k p :
  quote (u ":") page_id = Some q -> (k < Z.to_nat retries)%nat ->
  (forall j, (j < k)%nat -> resp j = None) -> resp k = Some p ->
  exists ev, fetch_page page_id resp retries = Some (Some p, ev)
    /\ count_gets ev = S k
    /\ total_sleep ev = 2 ^ Z.of_nat k
    /\ gets_only (DOKU_URL ++ u "?id=" ++ q) ev.
Proof.
  intros Hq Hk Hf Hp. unfold fetch_page. rewrite Hq.
  assert (HN : Z.of_nat (Z.to_nat retries) = retries) by (apply Z2Nat.id; lia).
  destruct (fetch_loop_success (DOKU_URL ++ u "?id=" ++ q) resp (Z.to_nat retries) 0 (Z.to_nat retries) k p
              ltac:(lia) ltac:(lia) ltac:(intros j Hj; apply Hf; lia) Hp) as [ev [E [C [T G]]]].
  rewrite HN in E. exists ev. rewrite E. repeat split; auto.
  - rewrite C. f_equal. lia.
  - rewrite T. change (2 ^ Z.of_nat 0) with 1. lia.
Qed.

Lemma no_adj_cons2 a b t :
  no_adj_space (a :: b :: t) = negb (is_space a && is_space b) && no_adj_space (b :: t).
Proof. reflexivity. Qed.

Lemma collapse_go_spaces b s : Forall (fun c => is_space c = true -> c = 32) (collapse_go b s).
Proof.
  revert b; induction s as [| c s IH]; intros b; simpl; [constructor |].
  destruct (is_space c) eqn:E; [destruct b; [apply IH | constructor; [reflexivity | apply IH]] |].
  constructor; [intros H; congruence | apply IH].
Qed.

Lemma collapse_go_no_adj b s :
  no_adj_space (collapse_go b s) = true /\ (b = true -> head_ok is_space (collapse_go b s)).
Proof.
  revert b; induction s as [| c s IH]; intros b; cbn [collapse_go].
  - split; [reflexivity | intros _ x r H; discriminate].
  - destruct (is_space c) eqn:E.
    + destruct b.
      * exact (IH true).
      * destruct (IH true) as [H1 H2]. split; [| discriminate].
        destruct (collapse_go true s) as [| x r] eqn:Er; [reflexivity |].
        rewrite no_adj_cons2, (H2 eq_refl x r eq_refl), andb_false_r. exact H1.
    + destruct (IH false) as [H1 _]. split.
      * destruct (collapse_go false s) as [| x r] eqn:Er; [reflexivity |].
        rewrite no_adj_cons2, E. exact H1.
      * intros _ x r H. injection H as <- _. exact E.
Qed.

Lemma no_adj_of_bool l : no_adj_space l = true -> no_adj is_space l.
Proof.
  induction l as [| x l IH]; intros H pre a b post E.
  - destruct pre; discriminate.
  - destruct pre as [| y pre]; simpl in E.
    + injection E as -> ->. rewrite no_adj_cons2 in H. apply andb_true_iff in H as [H _].
      intros [Ha Hb]. rewrite Ha, Hb in H. discriminate.
    + injection E as -> E. destruct l as [| z l]; [destruct pre; discriminate |].
      rewrite no_adj_cons2 in H. apply andb_true_iff in H as [_ H].
      exact (IH H pre a b post E).
Qed.

Lemma no_adj_suffix f pre l : no_adj f (pre ++ l) -> no_adj f l.
Proof.
  intros H pre' a b post E. apply (H (pre ++ pre') a b post). rewrite E, <- app_assoc. reflexivity.
Qed.

Lemma no_adj_rev f l : no_adj f l -> no_adj f (rev l).
Proof.
  intros H pre a b post E. apply (f_equal (@rev Z)) in E. rewrite rev_involutive in E.
  rewrite rev_app_distr in E. simpl in E. rewrite <- !app_assoc in E. simpl in E.
  intros [Ha Hb]. exact (H (rev post) b a (rev pre) E (conj Hb Ha)).
Qed.

Lemma lstrip_by_suffix f l : exists pre, l = pre ++ lstrip_by f l.
Proof.
  induction l as [| c l IH]; [exists []; reflexivity |].
  unfold lstrip_by; simpl. fold (lstrip_by f l).
  destruct (f c); [destruct IH as [pre E]; exists (c :: pre); simpl; f_equal; exact E | exists []; reflexivity].
Qed.

Lemma lstrip_by_head f l c rest : lstrip_by f l = c :: rest -> f c = false.
Proof.
  induction l as [| x l IH]; unfold lstrip_by; simpl; [discriminate |]. fold (lstrip_by f l).
  destruct (f x) eqn:E; [exact IH | intros H; injection H as <- _; exact E].
Qed.

Lemma no_adj_prefix f l post : no_adj f (l ++ post) -> no_adj f l.
Proof.
  intros H pre a b post' E. apply (H pre a b (post' ++ post)). rewrite E, <- app_assoc. reflexivity.
Qed.

Lemma strip_by_infix f l : exists pre post, l = pre ++ strip_by f l ++ post.
Proof.
  unfold strip_by.
  destruct (lstrip_by_suffix f l) as [p1 E1].
  destruct (lstrip_by_suffix f (rev (lstrip_by f l))) as [p2 E2].
  exists p1, (rev p2). rewrite E1 at 1. f_equal.
  rewrite <- rev_app_distr, <- E2, rev_involutive. reflexivity.
Qed.

Lemma strip_by_head f l : head_ok f (strip_by f l).
Proof.
  unfold strip_by. intros c rest E.
  destruct (lstrip_by_suffix f (rev (lstrip_by f l))) as [p2 E2].
  apply (f_equal (@rev Z)) in E2. rewrite rev_involutive, rev_app_distr, E in E2. simpl in E2.
  exact (lstrip_by_head _ _ _ _ E2).
Qed.

Lemma strip_by_last f l c rest : strip_by f l = rest ++ [c] -> f c = false.
Proof.
  unfold strip_by. intros E. apply (f_equal (@rev Z)) in E.
  rewrite rev_involutive, rev_app_distr in E. simpl in E.
  exact (lstrip_by_head _ _ _ _ E).
Qed.

Lemma clean_text_shape lib t :
  let r := clean_text lib t in
  (forall c, In c r -> is_space c = true -> c = 32)
  /\ (forall pre post, r <> pre ++ 32 :: 32 :: post)
  /\ (forall c rest, r = c :: rest -> is_space c = false)
  /\ (forall c rest, r = rest ++ [c] -> is_space c = false).
Proof.
  intros r. unfold r, clean_text. destruct t as [| x t].
  { split; [intros c [] | split; [intros pre post E; destruct pre; discriminate | split]].
    - intros c rest E; discriminate.
    - intros c rest E; destruct rest; discriminate. }
  set (m := collapse_ws (nfkc lib (x :: t))).
  destruct (strip_by_infix is_space m) as [pre0 [post0 E]].
  repeat split.
  - intros c Hin. apply (proj1 (Forall_forall _ _) (collapse_go_spaces false (nfkc lib (x :: t)))).
    fold (collapse_ws (nfkc lib (x :: t))). fold m. rewrite E. apply in_app_iff. right.
    apply in_app_iff. left. exact Hin.
  - intros pre post Heq.
    assert (N : no_adj is_space m) by apply no_adj_of_bool, collapse_go_no_adj.
    rewrite E in N. apply no_adj_suffix, no_adj_prefix in N.
    apply (N pre 32 32 post Heq). split; reflexivity.
  - apply strip_by_head.
  - apply strip_by_last.
Qed.

Lemma lstrip_by_fix f l : (forall c rest, l = c :: rest -> f c = false) -> lstrip_by f l = l.
Proof.
  destruct l as [| c l]; intros H; [reflexivity |].
  unfold lstrip_by. simpl. rewrite (H c l eq_refl). reflexivity.
Qed.

Lemma strip_by_fix f r : head_ok f r -> (forall c rest, r = rest ++ [c] -> f c = false) -> strip_by f r = r.
Proof.
  intros H1 H2. unfold strip_by. rewrite (lstrip_by_fix f r H1).
  rewrite lstrip_by_fix; [apply rev_involutive |].
  intros c rest E. apply (H2 c (rev rest)).
  apply (f_equal (@rev Z)) in E. rewrite rev_involutive in E. exact E.
Qed.

Lemma collapse_go_fix r : forall b,
  Forall (fun c => is_space c = true -> c = 32) r -> no_adj is_space r ->
  (b = true -> head_ok is_space r) -> collapse_go b r = r.
Proof.
  induction r as [| c r IH]; intros b Hs Hn Hh; [reflexivity |].
  inversion Hs as [| c' r' Hc Hr]; subst. cbn [collapse_go].
  destruct (is_space c) eqn:E.
  - destruct b; [rewrite (Hh eq_refl c r eq_refl) in E; discriminate |].
    rewrite (Hc eq_refl). f_equal. apply IH; [exact Hr | | ].
    + exact (no_adj_suffix is_space [c] r Hn).
    + intros _ d rest Er. subst r. destruct (is_space d) eqn:Ed; [| reflexivity].
      exfalso. apply (Hn [] c d rest eq_refl). split; assumption.
  - f_equal. apply IH; [exact Hr | exact (no_adj_suffix is_space [c] r Hn) | discriminate].
Qed.

(** X5: [clean_text] is idempotent on every text whose cleaned form is fixed by NFKC normalisation. *)
Theorem clean_text_idempotent lib t :
  nfkc lib (clean_text lib t) = clean_text lib t ->
  clean_text lib (clean_text lib t) = clean_text lib t.
Proof.
  intros Hn. destruct (clean_text_shape lib t) as [Hs [Hd [Hh Hl]]].
  set (r := clean_text lib t) in *.
  assert (Na : no_adj is_space r).
  { intros pre a b post E [Ha Hb].
    assert (a = 32) by (apply Hs; [rewrite E; apply in_app_iff; right; left; reflexivity | exact Ha]).
    assert (b = 32) by (apply Hs; [rewrite E; apply in_app_iff; right; right; left; reflexivity | exact Hb]).
    subst. exact (Hd pre post E). }
  unfold clean_text at 1. destruct r as [| x r'] eqn:Er; [reflexivity |].
  rewrite <- Er in *. rewrite Hn. unfold collapse_ws.
  rewrite collapse_go_fix; [| apply Forall_forall; exact Hs | exact Na | discriminate].
  apply strip_by_fix; [exact Hh | exact Hl].
Qed.

Lemma slug_go_chars b s : Forall (fun c => is_slug_char c = true \/ c = 45) (slug_go b s).
Proof.
  revert b; induction s as [| c s IH]; intros b; cbn [slug_go]; [constructor |].
  destruct (is_slug_char c) eqn:E; [constructor; [left; exact E | apply IH] |].
  destruct b; [apply IH | constructor; [right; reflexivity | apply IH]].
Qed.

Lemma slug_char_not_dash c : is_slug_char c = true -> is_dash c = false.
Proof.
  unfold is_slug_char, is_digit, is_dash. simpl. intros H.
  destruct (Z.eqb_spec c 45); [subst; discriminate | reflexivity].
Qed.

Lemma slug_go_no_adj b s :
  no_adj is_dash (slug_go b s) /\ (b = true -> head_ok is_dash (slug_go b s)).
Proof.
  revert b; induction s as [| c s IH]; intros b; cbn [slug_go].
  - split; [intros pre x y post E; destruct pre; discriminate | intros _ x r E; discriminate].
  - destruct (is_slug_char c) eqn:E.
    + destruct (IH false) as [H1 _]. split.
      * intros [| z pre] x y post Eq.
        -- injection Eq as <- _. rewrite slug_char_not_dash by exact E. intros [[=] _].
        -- injection Eq as _ Eq. exact (H1 pre x y post Eq).
      * intros _ x r Eq. injection Eq as <- _. apply slug_char_not_dash, E.
    + destruct b.
      * exact (IH true).
      * destruct (IH true) as [H1 H2]. split; [| discriminate].
        intros [| z pre] x y post Eq.
        -- injection Eq as <- Eq. rewrite Eq in H2. intros [_ Hy].
           rewrite (H2 eq_refl y post eq_refl) in Hy. discriminate.
        -- injection Eq as _ Eq. exact (H1 pre x y post Eq).
Qed.

Lemma slugify_is_slug s : is_slug (slugify s).
Proof.
  unfold slugify, strip_chars. fold is_dash.
  destruct (strip_by_infix is_dash (slug_go false s)) as [pre0 [post0 E]].
  set (r := strip_by is_dash (slug_go false s)) in *.
  repeat split.
  - apply Forall_forall. intros c Hin.
    apply (proj1 (Forall_forall _ _) (slug_go_chars false s)). rewrite E.
    apply in_app_iff; right; apply in_app_iff; left; exact Hin.
  - intros pre post Eq. destruct (slug_go_no_adj false s) as [N _].
    rewrite E in N. apply no_adj_suffix, no_adj_prefix in N.
    exact (N pre 45 45 post Eq (conj eq_refl eq_refl)).
  - intros rest Eq. pose proof (strip_by_head is_dash (slug_go false s) 45 rest Eq). discriminate.
  - intros rest Eq. pose proof (strip_by_last is_dash (slug_go false s) 45 rest Eq). discriminate.
Qed.

Lemma header_not_img e :
  is_tag ["h1"; "h2"; "h3"]%string e = true -> String.eqb (name_of e) "img" = false.
Proof.
  destruct e as [s | t a ch]; cbn [is_tag name_of existsb]; [discriminate |].
  intros H. rewrite orb_false_r in H.
  repeat (apply orb_true_iff in H as [H | H]); apply String.eqb_eq in H; subst; reflexivity.
Qed.

Lemma highlight_step_inv lib els st e :
  In e els ->
  Forall (hl_inv lib els) (fst st) -> (forall h, snd st = Some h -> hl_inv lib els h) ->
  Forall (hl_inv lib els) (fst (highlight_step lib st e))
  /\ (forall h, snd (highlight_step lib st e) = Some h -> hl_inv lib els h).
Proof.
  destruct st as [hs cur]; simpl. intros Hin H1 H2. unfold highlight_step.
  destruct (is_tag ["h1"; "h2"; "h3"]%string e) eqn:Ht.
  { rewrite (header_not_img e Ht).
    destruct (contains _ _) eqn:R; [split; assumption |].
    destruct cur as [h |]; simpl; [split; assumption |].
    destruct (highlight_marker _) eqn:M; simpl; [| split; assumption].
    split; [exact H1 |]. intros h E. injection E as <-.
    repeat split.
    - exists e, (clean_text lib (get_text e)).
      do 5 (split; [assumption || reflexivity |]). split; [reflexivity |].
      unfold new_highlight; simpl. destruct (has_cjk _) eqn:C; [left | right]; auto.
    - constructor.
    - left; reflexivity. }
  destruct (String.eqb (name_of e) "a").
  { destruct (find_tag "img" e) as [img |]; [| split; assumption].
    destruct cur as [h |]; [| split; assumption].
    destruct (_ || _) eqn:K; [| split; assumption].
    split; [exact H1 |]. intros h' E. injection E as <-.
    destruct (H2 h eq_refl) as [T [D [_ P]]].
    repeat split; try assumption.
    right. eexists; split; [reflexivity |]. apply orb_true_iff in K. exact K. }
  destruct (String.eqb (name_of e) "p").
  { destruct cur as [h |]; [| split; assumption].
    destruct (_ && _) eqn:K; [| split; assumption].
    split; [exact H1 |]. intros h' E. injection E as <-.
    destruct (H2 h eq_refl) as [T [D [I P]]].
    apply andb_true_iff in K as [_ K]. apply Nat.ltb_lt in K.
    repeat split; try assumption.
    simpl. apply Forall_app; split; [exact D | constructor; [exact K | constructor]]. }
  split; assumption.
Qed.

Lemma highlights_hl_inv lib soup h :
  In h (extract_research_highlights lib soup) ->
  exists content, find_content soup = Some content
                  /\ hl_inv lib (highlight_elements content) h.
Proof.
  unfold extract_research_highlights.
  destruct (find_content soup) as [content |]; [| intros []].
  set (all := highlight_elements content).
  assert (G : forall els st, incl els all ->
            Forall (hl_inv lib all) (fst st) -> (forall h, snd st = Some h -> hl_inv lib all h) ->
            Forall (hl_inv lib all) (fst (fold_left (highlight_step lib) els st))
            /\ (forall h, snd (fold_left (highlight_step lib) els st) = Some h -> hl_inv lib all h)).
  { induction els as [| e els IH]; intros st Hi H1 H2; simpl; [split; assumption |].
    destruct (highlight_step_inv lib all st e (Hi e (or_introl eq_refl)) H1 H2) as [H1' H2'].
    apply IH; [intros x Hx; apply Hi; right; exact Hx | exact H1' | exact H2']. }
  destruct (G all ([], None) (incl_refl _) (Forall_nil _) ltac:(discriminate)) as [H1 H2].
  destruct (fold_left _ _ _) as [hs cur]. simpl in H1, H2.
  intros Hin; exists content; split; [reflexivity |].
  destruct cur as [h0 |].
  - apply in_app_iff in Hin as [Hin | [<- | []]].
    + exact (proj1 (Forall_forall _ _) H1 h Hin).
    + apply H2; reflexivity.
  - exact (proj1 (Forall_forall _ _) H1 h Hin).
Qed.

Lemma years_ok_true : years_ok = true.
Proof. vm_compute. reflexivity. Qed.

Lemma z_to_dec_year y :
  1950 <= y <= 2049 ->
  length (z_to_dec y) = 4%nat /\ forallb is_ascii_digit (z_to_dec y) = true /\ digits_value (z_to_dec y) = y.
Proof.
  intros Hy. pose proof years_ok_true as H. unfold years_ok in H.
  rewrite forallb_forall in H.
  specialize (H (Z.to_nat (y - 1950))). rewrite in_seq in H.
  rewrite Z2Nat.id in H by lia.
  replace (1950 + (y - 1950)) with y in H by lia.
  specialize (H ltac:(lia)).
  apply andb_true_iff in H as [H H3]. apply andb_true_iff in H as [H1 H2].
  apply Nat.eqb_eq in H1. apply Z.eqb_eq in H3. auto.
Qed.

Lemma news_match_shape text ys ms title :
  news_match text = Some (ys, ms, title) ->
  exists y1 y2 m1 m2, ys = [y1; y2] /\ ms = [m1; m2] /\ title <> []
    /\ forallb is_digit [y1; y2; m1; m2] = true.
Proof.
  unfold news_match.
  destruct text as [| y1 [| y2 [| dot [| m1 [| m2 r]]]]]; try discriminate.
  destruct (is_digit y1) eqn:E1, (is_digit y2) eqn:E2, (is_digit m1) eqn:E3,
    (is_digit m2) eqn:E4; simpl; try (destruct (dot =? 46); discriminate).
  destruct (dot =? 46); [| discriminate].
  destruct (ws_then_rest 1 r) as [t |] eqn:W; [| discriminate].
  intros H; injection H as <- <- <-.
  exists y1, y2, m1, m2. repeat split; try rewrite E1, E2, E3, E4; try reflexivity.
  unfold ws_then_rest in W. destruct (span_ws r) as [ws t0].
  destruct (length ws <? 1)%nat; [discriminate |].
  destruct t0 as [| c t0].
  - destruct (1 <? length ws)%nat; [| discriminate]. injection W as <-. discriminate.
  - injection W as <-. discriminate.
Qed.

Lemma digits_value_2 a b : digits_value [a; b] = digit_value a * 10 + digit_value b.
Proof. unfold digits_value. cbn [fold_left]. lia. Qed.

Lemma digit_value_range c : is_digit c = true -> 0 <= digit_value c <= 9.
Proof.
  unfold is_digit, digit_value, decimal_value.
  destruct (find _ nd_zeros) as [z |] eqn:F; [| discriminate]. intros _.
  apply find_some in F as [_ F]. apply andb_true_iff in F as [F1 F2].
  apply Z.leb_le in F1. apply Z.leb_le in F2. lia.
Qed.

Lemma news_of_li_shape lib li it :
  news_of_li lib li = Some it ->
  length (n_date it) = 7%nat
  /\ forallb is_ascii_digit (firstn 4 (n_date it)) = true
  /\ nth 4 (n_date it) 0 = 45
  /\ forallb is_digit (skipn 5 (n_date it)) = true
  /\ digits_value (firstn 4 (n_date it)) = n_year it
  /\ digits_value (skipn 5 (n_date it)) = n_month it
  /\ 1950 <= n_year it <= 2049
  /\ n_title it <> [].
Proof.
  unfold news_of_li.
  destruct (news_match (clean_text lib (get_text li))) as [[[ys ms] title] |] eqn:M;
    [| discriminate].
  intros E. apply some_eq in E. subst it. cbn [n_date n_year n_month n_title].
  destruct (news_match_shape _ _ _ _ M) as [y1 [y2 [m1 [m2 [-> [-> [Ht D]]]]]]].
  simpl in D. rewrite !andb_true_iff in D. destruct D as [D1 [D2 [D3 [D4 _]]]].
  pose proof (digit_value_range _ D1). pose proof (digit_value_range _ D2).
  assert (Y0 : 0 <= digits_value [y1; y2] <= 99) by (rewrite digits_value_2; lia).
  set (y := if digits_value [y1; y2] <? 50 then 2000 + digits_value [y1; y2]
            else 1900 + digits_value [y1; y2]).
  assert (Hy : 1950 <= y <= 2049).
  { unfold y. destruct (_ <? 50) eqn:L; [apply Z.ltb_lt in L | apply Z.ltb_ge in L]; lia. }
  destruct (z_to_dec_year y Hy) as [L [Dg V]].
  destruct (z_to_dec y) as [| a [| b [| c [| d [| e r]]]]]; try discriminate.
  change (u "-") with [45]. unfold zfill2. cbn [length]. replace (2 - 2)%nat with 0%nat by reflexivity.
  cbn [repeat app firstn skipn nth length].
  cbn [app skipn forallb].
  repeat split; try assumption; try lia.
  rewrite D3, D4. reflexivity.
Qed.

(** X8: every news item has a date of the form YYYY-MM (seven characters, four digits, a dash, two digits) whose year digits read as its year and month digits as its month; the year lies in 1950..2049 and the title is not empty. *)
Theorem news_items_well_formed lib soup it :
  In it (extract_news lib soup) ->
  length (n_date it) = 7%nat
  /\ forallb is_ascii_digit (firstn 4 (n_date it)) = true
  /\ nth 4 (n_date it) 0 = 45
  /\ forallb is_digit (skipn 5 (n_date it)) = true
  /\ digits_value (firstn 4 (n_date it)) = n_year it
  /\ digits_value (skipn 5 (n_date it)) = n_month it
  /\ 1950 <= n_year it <= 2049
  /\ n_title it <> [].
Proof.
  unfold extract_news. destruct (find_content soup) as [content |]; [| intros []].
  intros H. apply sort_news_in, news_fold_in in H as [[] | [li [_ E]]].
  exact (news_of_li_shape lib li it E).
Qed.

Lemma insert_news_perm x l : Permutation (insert_news x l) (x :: l).
Proof.
  induction l as [| z l IH]; simpl; [reflexivity |].
  destruct (news_ge x z); [reflexivity |].
  rewrite IH. apply perm_swap.
Qed.

Lemma sort_news_perm l : Permutation (sort_news l) l.
Proof.
  induction l as [| x l IH]; simpl; [reflexivity |].
  rewrite insert_news_perm. constructor. exact IH.
Qed.

Lemma insert_news_filter y m x l :
  filter (same_key y m) (insert_news x l) = filter (same_key y m) (x :: l).
Proof.
  induction l as [| z l IH]; simpl; [reflexivity |].
  destruct (news_ge x z) eqn:G; [reflexivity |].
  simpl. rewrite IH. simpl.
  unfold news_ge in G. unfold same_key.
  destruct (n_year z =? y) eqn:Y1, (n_month z =? m) eqn:M1,
    (n_year x =? y) eqn:Y2, (n_month x =? m) eqn:M2; simpl; try reflexivity.
  exfalso. rewrite Z.eqb_eq in Y1, Y2, M1, M2.
  rewrite orb_false_iff, andb_false_iff, Z.ltb_ge in G.
  destruct G as [_ [G | G]]; [rewrite Z.eqb_neq in G | rewrite Z.leb_gt in G]; lia.
Qed.

Lemma sort_news_filter y m l :
  filter (same_key y m) (sort_news l) = filter (same_key y m) l.
Proof.
  induction l as [| x l IH]; [reflexivity |].
  cbn [sort_news fold_right]. fold (sort_news l).
  rewrite insert_news_filter. simpl. rewrite IH. reflexivity.
Qed.

Lemma news_fold_flat lib lis acc :
  fold_left (fun acc li => match news_of_li lib li with
                           | Some item => acc ++ [item]
                           | None => acc
                           end) lis acc
  = acc ++ flat_map (fun li => match news_of_li lib li with Some it => [it] | None => [] end) lis.
Proof.
  revert acc; induction lis as [| li lis IH]; intros acc; simpl; [symmetry; apply app_nil_r |].
  rewrite IH. destruct (news_of_li lib li); simpl; [rewrite <- app_assoc |]; reflexivity.
Qed.

(** X9: the list returned by [extract_news] is a permutation of the items matched in page order, and items with the same (year, month) key keep their page order. *)
Theorem extract_news_stable_sort lib soup content :
  find_content soup = Some content ->
  Permutation (extract_news lib soup) (news_in_page_order lib content)
  /\ forall y m, filter (same_key y m) (extract_news lib soup)
                 = filter (same_key y m) (news_in_page_order lib content).
Proof.
  intros Hc. unfold extract_news. rewrite Hc. rewrite news_fold_flat. simpl.
  split; [apply sort_news_perm | intros y m; apply sort_news_filter].
Qed.

Lemma lstrip_by_split f l : exists pre, l = pre ++ lstrip_by f l /\ forallb f pre = true.
Proof.
  induction l as [| c l IH]; [exists []; split; reflexivity |].
  unfold lstrip_by; simpl. fold (lstrip_by f l).
  destruct (f c) eqn:E.
  - destruct IH as [pre [H1 H2]]. exists (c :: pre). simpl. rewrite E, H2. split; [rewrite <- H1 |]; reflexivity.
  - exists []. split; reflexivity.
Qed.

Lemma firstn_lstrip f l :
  forallb f (firstn (length l - length (lstrip_by f l)) l) = true.
Proof.
  destruct (lstrip_by_split f l) as [pre [H1 H2]].
  set (t := lstrip_by f l) in *. clearbody t. subst l.
  rewrite length_app. replace (length pre + length t - length t)%nat with (length pre) by lia.
  rewrite firstn_app, firstn_all, Nat.sub_diag. simpl. rewrite app_nil_r. exact H2.
Qed.

Lemma project_match_number text number title :
  project_match text = Some (number, title) ->
  number <> [] /\ forallb is_digit number = true.
Proof.
  unfold project_match. intros H.
  set (r3 := lstrip_by is_space _) in H.
  pose proof (firstn_lstrip is_digit r3) as D.
  destruct (firstn _ r3) as [| d ds];
    destruct (lstrip_by is_digit r3) as [| c r]; try discriminate;
    destruct c as [| c | c]; try discriminate;
    repeat (destruct c as [c | c |]; try discriminate).
  destruct (ws_then_rest 0 r); [| discriminate].
  injection H as <- _. split; [discriminate | exact D].
Qed.

Lemma project_titles_ok lib e title :
  let zh_en := project_titles lib e title in
  (fst zh_en = [] \/ has_cjk (fst zh_en) = true)
  /\ (snd zh_en = [] \/ has_cjk (snd zh_en) = false).
Proof.
  unfold project_titles.
  destruct (contains [10] (get_text e)).
  - set (f := fun (zh_en : pystr * pystr) part0 => _).
    assert (G : forall parts acc,
               (fst acc = [] \/ has_cjk (fst acc) = true)
               /\ (snd acc = [] \/ has_cjk (snd acc) = false) ->
               let r := fold_left f parts acc in
               (fst r = [] \/ has_cjk (fst r) = true) /\ (snd r = [] \/ has_cjk (snd r) = false)).
    { induction parts as [| p parts IH]; intros acc H; [exact H |].
      simpl. apply IH. destruct acc as [zh en]. unfold f.
      destruct (clean_text lib p) as [| c cs] eqn:C; [exact H |].
      destruct (negb (is_str_digit c)); [| exact H].
      destruct (has_cjk (c :: cs)) eqn:K; simpl; split; simpl in H; try tauto. }
    apply G. simpl. auto.
  - destruct (has_cjk title) eqn:K; simpl; auto.
Qed.

Lemma project_step_ok lib st e :
  Forall project_ok (fst st) -> Forall project_ok (fst (project_step lib st e)).
Proof.
  destruct st as [ps b]. simpl. intros H. unfold project_step.
  destruct (_ && _); [exact H |].
  match goal with |- context [if ?c then false else b] => destruct c end;
    [exact H | destruct b; [| exact H]].
  destruct (project_match _) as [[number title] |] eqn:M; [| exact H].
  pose proof (project_titles_ok lib e title) as T.
  destruct (project_titles lib e title) as [zh en]. simpl.
  apply Forall_app; split; [exact H |]. constructor; [| constructor].
  destruct (project_match_number _ _ _ M) as [N D].
  cbv zeta in T. cbn [fst snd] in T. destruct T as [T1 T2].
  split; [exists number; auto | split; [reflexivity | split; assumption]].
Qed.

(** X10: every research project has id [project-N] where N is a non-empty digit string whose value is its number; its description is empty; its Chinese title is empty or contains a CJK character, and its English title is empty or contains none. *)
Theorem research_projects_well_formed lib soup p :
  In p (extract_research_projects lib soup) -> project_ok p.
Proof.
  unfold extract_research_projects. destruct (find_content soup) as [content |]; [| intros []].
  intros Hin. revert p Hin. apply Forall_forall.
  assert (G : forall els st, Forall project_ok (fst st) ->
            Forall project_ok (fst (fold_left (project_step lib) els st))).
  { induction els as [| e els IH]; intros st H; [exact H |]. simpl. apply IH, project_step_ok, H. }
  apply G. constructor.
Qed.

(** X11: when no h1, h2 or h3 element of the content root mentions [Research Project] or the Chinese word for research project, [extract_research_projects] returns no project. *)
Theorem no_projects_without_header lib soup :
  (forall content e, find_content soup = Some content ->
     In e (find_all ["h1"; "h2"; "h3"; "p"; "li"]%string content) -> project_header lib e = false) ->
  extract_research_projects lib soup = [].
Proof.
  intros H. unfold extract_research_projects.
  destruct (find_content soup) as [content |] eqn:Ec; [| reflexivity].
  specialize (H content). revert H.
  generalize (find_all ["h1"; "h2"; "h3"; "p"; "li"]%string content) as els.
  intros els H.
  assert (G : fold_left (project_step lib) els ([], false) = ([], false)).
  { induction els as [| e els IH]; [reflexivity |]. cbn [fold_left].
    replace (project_step lib ([], false) e) with (@nil project, false).
    - apply IH. intros e' E H'. apply (H e' E). right. exact H'.
    - specialize (H e eq_refl (or_introl eq_refl)). unfold project_header in H.
      unfold project_step. rewrite H. rewrite andb_false_r. reflexivity. }
  rewrite G. reflexivity.
Qed.

Lemma people_step_no_header lib st e :
  current_category st = None -> people_header_kw lib e = false -> people_step lib st e = st.
Proof.
  intros Hc Hk. unfold people_header_kw in Hk. unfold people_step.
  cbv zeta in Hk.
  destruct (clean_text lib (get_text e)) as [| c cs] eqn:T; [reflexivity |].
  destruct (is_tag ["h1"; "h2"; "h3"; "h4"]%string e); cbn [andb] in Hk.
  - apply orb_false_iff in Hk as [H1 H2]. rewrite H1.
    destruct (find _ category_keywords) as [[k cat] |] eqn:F; [| reflexivity].
    exfalso. apply find_some in F as [Fin Fk].
    assert (existsb (fun kc => contains (fst kc) (str_lower lib (c :: cs))) category_keywords = true)
      by (apply existsb_exists; exists (k, cat); auto).
    congruence.
  - destruct (is_tag ["li"; "p"; "tr"]%string e); [| reflexivity]. rewrite Hc. reflexivity.
Qed.

(** X12: when no h1 to h4 element of the members content root names the alumni section or a category keyword, [extract_people] returns six empty categories. *)
Theorem people_empty_without_header lib soup :
  (forall content e, find_content soup = Some content ->
     In e (people_elements content) -> people_header_kw lib e = false) ->
  extract_people lib soup = empty_roster.
Proof.
  intros H. unfold extract_people.
  destruct (find_content soup) as [content |]; [| reflexivity].
  assert (H' : forall e, In e (people_elements content) -> people_header_kw lib e = false)
    by (intros e; apply (H content e eq_refl)).
  clear H. unfold people_run. revert H'.
  generalize (people_elements content) as els. intros els.
  cut (forall st, current_category st = None -> people st = empty_roster ->
         (forall e, In e els -> people_header_kw lib e = false) ->
         people (fold_left (people_step lib) els st) = empty_roster).
  { intros G H. apply G; [reflexivity | reflexivity | exact H]. }
  induction els as [| e els IH]; intros st Hc Hp H; [exact Hp |].
  cbn [fold_left]. rewrite people_step_no_header by (auto; apply H; left; reflexivity).
  apply IH; auto. intros e' He'. apply H. right. exact He'.
Qed.

Lemma push_size c m r : roster_size (push c m r) = S (roster_size r).
Proof. destruct c; unfold roster_size; simpl; rewrite !length_app; simpl; lia. Qed.

Lemma people_step_size lib st e :
  (roster_size (people (people_step lib st e))
   <= roster_size (people st) + if is_tag ["li"; "p"; "tr"]%string e then 1 else 0)%nat.
Proof.
  unfold people_step.
  destruct (clean_text lib (get_text e)) as [| c cs]; [lia |].
  destruct (is_tag ["h1"; "h2"; "h3"; "h4"]%string e).
  - destruct (contains _ _); [simpl; lia |].
    destruct (find _ category_keywords) as [[k cat] |]; [| lia].
    destruct (is_alumni_section st); [destruct (is_standard_role cat) |]; simpl; lia.
  - destruct (is_tag ["li"; "p"; "tr"]%string e); [| lia].
    destruct (current_category st) as [cat |]; [| lia].
    destruct (length (c :: cs) <? 2)%nat; [lia |].
    destruct (member_match _) as [[[g1 g2] g3] |].
    + simpl. rewrite push_size. lia.
    + destruct (_ && _); [simpl; rewrite push_size |]; lia.
Qed.

(** X13: [extract_people] adds at most one person per li, p or tr element: the number of people in all categories is at most the number of such elements in the content root. *)
Theorem people_at_most_one_per_element lib soup content :
  find_content soup = Some content ->
  (roster_size (extract_people lib soup)
   <= length (filter (is_tag ["li"; "p"; "tr"]%string) (people_elements content)))%nat.
Proof.
  intros Hc. unfold extract_people. rewrite Hc. unfold people_run.
  generalize (people_elements content) as els. intros els.
  cut (forall st, (roster_size (people (fold_left (people_step lib) els st))
                   <= roster_size (people st) + length (filter (is_tag ["li"; "p"; "tr"]%string) els))%nat).
  { intros G. specialize (G people_init). simpl in G. exact G. }
  induction els as [| e els IH]; intros st; simpl; [lia |].
  specialize (IH (people_step lib st e)). pose proof (people_step_size lib st e).
  destruct (is_tag ["li"; "p"; "tr"]%string e); simpl in *; lia.
Qed.

Lemma search_two_digits_shape s y :
  search_two_digits s = Some y -> exists a b, y = [a; b] /\ is_digit a = true /\ is_digit b = true.
Proof.
  induction s as [| a s IH]; simpl; [discriminate |].
  destruct s as [| b s]; [discriminate |].
  destruct (is_digit a) eqn:A, (is_digit b) eqn:B; simpl; try exact IH.
  intros H. injection H as <-. exists a, b. auto.
Qed.

Lemma member_of_parts_ok lib e n i r : person_ok (member_of_parts lib e n i r).
Proof.
  unfold member_of_parts, parse_year_dept.
  destruct (search_two_digits i) as [y |] eqn:S.
  - destruct (search_two_digits_shape _ _ S) as [a [b [-> [A B]]]].
    destruct (split_names n). split; cbn [year_start research].
    + rewrite digits_value_2. pose proof (digit_value_range _ A). pose proof (digit_value_range _ B).
      destruct (_ <? 50) eqn:L; [apply Z.ltb_lt in L | apply Z.ltb_ge in L]; lia.
    + apply Forall_forall. intros x Hx. apply filter_In in Hx as [Hx Hn].
      apply in_map_iff in Hx as [x0 [<- _]].
      split; [intros E; rewrite E in Hn; discriminate |].
      split; [apply strip_by_head | apply strip_by_last].
  - destruct (split_names n). split; cbn [year_start research]; [lia |].
    apply Forall_forall. intros x Hx. apply filter_In in Hx as [Hx Hn].
    apply in_map_iff in Hx as [x0 [<- _]].
    split; [intros E; rewrite E in Hn; discriminate |].
    split; [apply strip_by_head | apply strip_by_last].
Qed.

Lemma bucket_push c c' m r p : In p (bucket c (push c' m r)) -> In p (bucket c r) \/ p = m.
Proof.
  destruct c, c'; simpl; intros H; try (left; exact H);
    apply in_app_iff in H as [H | [<- | []]]; auto.
Qed.

Lemma roster_ok_push c m r : roster_ok r -> person_ok m -> roster_ok (push c m r).
Proof.
  intros H Hm c'. apply Forall_forall. intros p Hp.
  destruct (bucket_push _ _ _ _ _ Hp) as [Hp' | ->]; [| exact Hm].
  exact (proj1 (Forall_forall _ _) (H c') p Hp').
Qed.

Lemma people_step_ok lib st e : roster_ok (people st) -> roster_ok (people (people_step lib st e)).
Proof.
  intros H. unfold people_step.
  destruct (clean_text lib (get_text e)) as [| c cs]; [exact H |].
  destruct (is_tag ["h1"; "h2"; "h3"; "h4"]%string e).
  - destruct (contains _ _); [exact H |].
    destruct (find _ category_keywords) as [[k cat] |]; [| exact H].
    destruct (is_alumni_section st); [destruct (is_standard_role cat) |]; exact H.
  - destruct (is_tag ["li"; "p"; "tr"]%string e); [| exact H].
    destruct (current_category st) as [cat |]; [| exact H].
    destruct (length (c :: cs) <? 2)%nat; [exact H |].
    destruct (member_match _) as [[[g1 g2] g3] |].
    + apply roster_ok_push; [exact H | apply member_of_parts_ok].
    + destruct (_ && _); [| exact H]. apply roster_ok_push; [exact H |].
      split; cbn [year_start research fallback_member]; [lia | constructor].
Qed.

(** X14: every person returned by [extract_people] has a start year in 1950..2049, and every research entry is non-empty with no whitespace at either end. *)
Theorem people_records_well_formed lib soup c m :
  In m (bucket c (extract_people lib soup)) ->
  1950 <= year_start m <= 2049 /\ Forall stripped (research m).
Proof.
  intros Hin. fold (person_ok m). revert m Hin. apply Forall_forall. revert c.
  fold (roster_ok (extract_people lib soup)).
  unfold extract_people. destruct (find_content soup) as [content |].
  - unfold people_run. generalize (people_elements content) as els.
    assert (G : forall els st, roster_ok (people st) -> roster_ok (people (fold_left (people_step lib) els st))).
    { induction els as [| e els IH]; intros st H; [exact H |]. apply IH, people_step_ok, H. }
    intros els. apply G. intros c. destruct c; constructor.
  - intros c. destruct c; constructor.
Qed.

Lemma pi_step_keeps lib st e :
  let p' := fst (pi_step lib st e) in
  pi_fixed_fields p' = pi_fixed_fields (fst st)
  /\ pi_photo p' = pi_photo (fst st) /\ pi_bio p' = pi_bio (fst st)
  /\ (Forall (Forall (fun t => t <> [])) (pi_lists (fst st)) ->
      Forall (Forall (fun t => t <> [])) (pi_lists p')).
Proof.
  destruct st as [p cur]. unfold pi_step. cbn zeta.
  destruct (is_tag ["h2"; "h3"; "h4"]%string e).
  - destruct (find _ section_keywords) as [[k sec] |]; simpl; auto.
  - destruct (String.eqb (name_of e) "li"); [| simpl; auto].
    destruct cur as [sec |]; [| simpl; auto].
    destruct (clean_text lib (get_text e)) as [| c cs] eqn:T; [simpl; auto |].
    simpl. repeat split; try (destruct sec; reflexivity).
    intros H. unfold pi_lists in *.
    inversion H as [| ? ? H1 H']; subst. inversion H' as [| ? ? H2 H'']; subst.
    inversion H'' as [| ? ? H3 H''']; subst. inversion H''' as [| ? ? H4 _]; subst.
    assert (Hn : Forall (fun t => t <> []) [c :: cs]) by (constructor; [discriminate | constructor]).
    destruct sec; simpl; repeat constructor; try assumption; apply Forall_app; auto.
Qed.

Lemma join_length sep x xs : (length x <= length (join sep (x :: xs)))%nat.
Proof.
  destruct xs; simpl; [lia |]. rewrite length_app. lia.
Qed.

(** X15: [extract_pi_info] never changes the name, title, department, institution, emails, phone, fax and address of its default record, whatever the page holds. *)
Theorem pi_identity_fixed lib soup :
  pi_fixed_fields (extract_pi_info lib soup) = pi_fixed_fields pi_default.
Proof.
  unfold extract_pi_info. destruct (find_content soup) as [content |]; [| reflexivity].
  set (p0 := pi_with pi_default _ _ [] [] [] []).
  assert (G : forall els st, pi_fixed_fields (fst (fold_left (pi_step lib) els st)) = pi_fixed_fields (fst st)).
  { induction els as [| e els IH]; intros st; [reflexivity |]. cbn [fold_left].
    rewrite IH. apply (pi_step_keeps lib st e). }
  rewrite G. reflexivity.
Qed.

(** X16: in the record returned by [extract_pi_info] the biography is empty or longer than 100 characters, the photo is absent or the absolute URL of a source whose lowercase form contains [juan] or [pi], and every entry of the education, positions, awards and societies lists is non-empty. *)
Theorem pi_content_well_formed lib soup :
  let p := extract_pi_info lib soup in
  (pi_bio p = [] \/ (100 < length (pi_bio p))%nat)
  /\ (pi_photo p = None
      \/ exists src, pi_photo p = Some (make_absolute_url lib src)
                     /\ (contains (u "juan") (str_lower lib src) = true
                         \/ contains (u "pi") (str_lower lib src) = true))
  /\ Forall (Forall (fun t => t <> [])) (pi_lists p).
Proof.
  unfold extract_pi_info. destruct (find_content soup) as [content |];
    [| simpl; split; [left; reflexivity | split; [left; reflexivity | repeat constructor]]].
  set (photo := match find _ _ with Some _ => _ | None => _ end).
  set (paragraphs := filter _ _).
  set (bio := match paragraphs with [] => [] | _ => _ end).
  assert (G : forall els st,
             let p' := fst (fold_left (pi_step lib) els st) in
             pi_photo p' = pi_photo (fst st) /\ pi_bio p' = pi_bio (fst st)
             /\ (Forall (Forall (fun t => t <> [])) (pi_lists (fst st)) ->
                 Forall (Forall (fun t => t <> [])) (pi_lists p'))).
  { induction els as [| e els IH]; intros st; [simpl; auto |]. cbn [fold_left].
    destruct (IH (pi_step lib st e)) as [I1 [I2 I3]].
    destruct (pi_step_keeps lib st e) as [_ [K1 [K2 K3]]].
    cbv zeta in *. rewrite I1, I2, K1, K2. auto. }
  destruct (G (find_all ["h2"; "h3"; "h4"; "li"]%string content) (pi_with pi_default photo bio [] [] [] [], None))
    as [G1 [G2 G3]].
  cbv zeta. rewrite G1, G2. cbn [fst pi_with pi_photo pi_bio].
  split; [| split; [| apply G3; repeat constructor]].
  - unfold bio. destruct paragraphs as [| p0 ps] eqn:P; [left; reflexivity | right].
    assert (Hp0 : In p0 paragraphs) by (rewrite P; left; reflexivity).
    unfold paragraphs in Hp0. apply filter_In in Hp0 as [_ L]. apply Nat.ltb_lt in L.
    pose proof (join_length [10; 10] p0 (firstn 2 ps)) as J. cbn [firstn] in J |- *. lia.
  - unfold photo. destruct (find _ _) as [img |] eqn:F; [right | left; reflexivity].
    apply find_some in F as [_ F]. exists (attr_or_empty "src" img). split; [reflexivity |].
    apply orb_true_iff in F. exact F.
Qed.


(** X4: the output of [clean_text] has no whitespace other than single spaces: every whitespace character is a space, no two spaces are adjacent, and it neither starts nor ends with whitespace. *)
Theorem clean_text_normal_form lib t :
  let r := clean_text lib t in
  (forall c, In c r -> is_space c = true -> c = 32)
  /\ (forall pre post, r <> pre ++ 32 :: 32 :: post)
  /\ (forall c rest, r = c :: rest -> is_space c = false)
  /\ (forall c rest, r = rest ++ [c] -> is_space c = false).
Proof. exact (clean_text_shape lib t). Qed.

(** X6: every research highlight comes from an [h1], [h2] or [h3] element of the content root whose cleaned text has a topic marker and does not contain "Research Highlight": its id is the slug of the lowercased text, the text is its Chinese title (empty English title) when it contains a CJK character and its English title (empty Chinese title) otherwise; every description paragraph has more than 50 characters; its image is absent or the absolute URL of a source whose lowercase form contains [highlight] or [research]; its publication list is empty. *)
Theorem research_highlights_well_formed lib soup h :
  In h (extract_research_highlights lib soup) ->
  exists content, find_content soup = Some content
                  /\ hl_inv lib (highlight_elements content) h.
Proof. apply highlights_hl_inv. Qed.

(** X7: every research highlight id consists of lowercase ASCII letters, digits and dashes, has no two adjacent dashes and neither starts nor ends with a dash. *)
Theorem highlight_ids_are_slugs lib soup h :
  In h (extract_research_highlights lib soup) -> is_slug (h_id h).
Proof.
  intros H.
  destruct (highlights_hl_inv lib soup h H) as [content [_ [[e [text [_ [_ [_ [_ [_ [-> _]]]]]]]] _]]].
  apply slugify_is_slug.
Qed.

Lemma unquote_quote_witness :
  quote (u ":") [0x962e; 0x96ea; 0x82ac] = Some (u "%E9%98%AE%E9%9B%AA%E8%8A%AC")
  /\ unquote (u "%E9%98%AE%E9%9B%AA%E8%8A%AC") = [0x962e; 0x96ea; 0x82ac].
Proof.
  assert (Hq : quote (u ":") [0x962e; 0x96ea; 0x82ac] = Some (u "%E9%98%AE%E9%9B%AA%E8%8A%AC"))
    by (vm_compute; reflexivity).
  split; [exact Hq |].
  apply (unquote_quote (u ":") [0x962e; 0x96ea; 0x82ac] _).
  - change (u ":") with [58]. apply Forall_cons; [lia | apply Forall_nil].
  - intros H. vm_compute in H. destruct H as [H | []]. discriminate.
  - exact Hq.
Defined.

Lemma fetch_page_all_fail_witness :
  exists ev, fetch_page (u "start") (fun _ => None) 3 = Some (None, ev)
    /\ count_gets ev = 3%nat /\ total_sleep ev = 3
    /\ gets_only (DOKU_URL ++ u "?id=" ++ u "start") ev.
Proof.
  apply (fetch_page_all_fail (u "start") (fun _ => None) 3 (u "start")).
  - vm_compute. reflexivity.
  - lia.
  - reflexivity.
Defined.

Lemma fetch_page_first_success_witness :
  exists ev, fetch_page (u "start") (fun k => if Nat.eqb k 1 then Some no_root_doc else None) 3
             = Some (Some no_root_doc, ev)
    /\ count_gets ev = 2%nat /\ total_sleep ev = 2
    /\ gets_only (DOKU_URL ++ u "?id=" ++ u "start") ev.
Proof.
  apply (fetch_page_first_success (u "start") _ 3 (u "start") 1 no_root_doc).
  - vm_compute. reflexivity.
  - apply Nat.ltb_lt. reflexivity.
  - intros j Hj. destruct j as [| j]; [reflexivity | lia].
  - reflexivity.
Defined.

Lemma clean_text_idempotent_witness :
  clean_text sample_lib (u " Big   Data ") = u "Big Data"
  /\ clean_text sample_lib (clean_text sample_lib (u " Big   Data ")) = clean_text sample_lib (u " Big   Data ").
Proof.
  split; [vm_compute; reflexivity |].
  apply clean_text_idempotent. reflexivity.
Defined.

Lemma research_highlights_well_formed_witness :
  In hl_sample_first (extract_research_highlights sample_lib hl_sample_doc)
  /\ exists content, find_content hl_sample_doc = Some content
                    /\ hl_inv sample_lib (highlight_elements content) hl_sample_first.
Proof.
  assert (H : In hl_sample_first (extract_research_highlights sample_lib hl_sample_doc))
    by (vm_compute; left; reflexivity).
  split; [exact H | exact (research_highlights_well_formed _ _ _ H)].
Defined.

Lemma highlight_ids_are_slugs_witness :
  In hl_sample_first (extract_research_highlights sample_lib hl_sample_doc)
  /\ is_slug (h_id hl_sample_first).
Proof.
  assert (H : In hl_sample_first (extract_research_highlights sample_lib hl_sample_doc))
    by (vm_compute; left; reflexivity).
  split; [exact H | exact (highlight_ids_are_slugs _ _ _ H)].
Defined.

Lemma news_items_well_formed_witness :
  In news_item_2403 (extract_news sample_lib news_sample_doc)
  /\ length (n_date news_item_2403) = 7%nat
  /\ forallb is_ascii_digit (firstn 4 (n_date news_item_2403)) = true
  /\ nth 4 (n_date news_item_2403) 0 = 45
  /\ forallb is_digit (skipn 5 (n_date news_item_2403)) = true
  /\ digits_value (firstn 4 (n_date news_item_2403)) = n_year news_item_2403
  /\ digits_value (skipn 5 (n_date news_item_2403)) = n_month news_item_2403
  /\ 1950 <= n_year news_item_2403 <= 2049
  /\ n_title news_item_2403 <> [].
Proof.
  assert (H : In news_item_2403 (extract_news sample_lib news_sample_doc))
    by (vm_compute; left; reflexivity).
  split; [exact H | exact (news_items_well_formed _ _ _ H)].
Defined.

Lemma extract_news_stable_sort_witness :
  find_content news_sample_doc = Some (root news_sample_items)
  /\ Permutation (extract_news sample_lib news_sample_doc)
                 (news_in_page_order sample_lib (root news_sample_items))
  /\ forall y m, filter (same_key y m) (extract_news sample_lib news_sample_doc)
                 = filter (same_key y m) (news_in_page_order sample_lib (root news_sample_items)).
Proof.
  assert (H : find_content news_sample_doc = Some (root news_sample_items)) by (vm_compute; reflexivity).
  split; [exact H | exact (extract_news_stable_sort _ _ _ H)].
Defined.

Lemma research_projects_well_formed_witness :
  In proj_sample_first (extract_research_projects sample_lib proj_sample_doc)
  /\ project_ok proj_sample_first.
Proof.
  assert (H : In proj_sample_first (extract_research_projects sample_lib proj_sample_doc))
    by (vm_compute; left; reflexivity).
  split; [exact H | exact (research_projects_well_formed _ _ _ H)].
Defined.

Lemma no_projects_without_header_witness :
  extract_research_projects sample_lib news_sample_doc = [].
Proof.
  apply no_projects_without_header.
  intros content e Hc. rewrite (eq_refl : find_content news_sample_doc = Some (root news_sample_items)) in Hc.
  apply some_eq in Hc. subst content. revert e. apply Forall_forall.
  vm_compute. repeat constructor.
Defined.

Lemma people_empty_without_header_witness :
  extract_people sample_lib news_sample_doc = empty_roster.
Proof.
  apply people_empty_without_header.
  intros content e Hc. rewrite (eq_refl : find_content news_sample_doc = Some (root news_sample_items)) in Hc.
  apply some_eq in Hc. subst content. revert e. apply Forall_forall.
  vm_compute. repeat constructor.
Defined.

Lemma people_at_most_one_per_element_witness :
  find_content (page members_sample_els) = Some (root members_sample_els)
  /\ roster_size (extract_people sample_lib (page members_sample_els)) = 1%nat
  /\ (roster_size (extract_people sample_lib (page members_sample_els))
      <= length (filter (is_tag ["li"; "p"; "tr"]%string) (people_elements (root members_sample_els))))%nat.
Proof.
  assert (H : find_content (page members_sample_els) = Some (root members_sample_els))
    by (vm_compute; reflexivity).
  split; [exact H |]. split; [vm_compute; reflexivity |].
  exact (people_at_most_one_per_element _ _ _ H).
Defined.

Lemma people_records_well_formed_witness :
  In members_sample_person (bucket phd_students (extract_people sample_lib (page members_sample_els)))
  /\ 1950 <= year_start members_sample_person <= 2049
  /\ Forall stripped (research members_sample_person).
Proof.
  assert (H : In members_sample_person
                (bucket phd_students (extract_people sample_lib (page members_sample_els))))
    by (vm_compute; left; reflexivity).
  split; [exact H | exact (people_records_well_formed _ _ _ _ H)].
Defined.
